(** * shapes-ts: runtime shape descriptors and their checks

    A shallow embedding of the shape library (the primitive checkers, the
    [TypeShape] records and the builders [string], [number], [boolean],
    [optional], [nullable], [array] and [object]) together with the
    properties of its checks.

    The embedding follows the TypeScript source: a shape is a record that
    carries its [checkFn] closure; [console.warn] is a write to the console,
    threaded as state; an exception raised while a check runs (the only
    source is the string conversion of a template-literal hole) is an
    outcome of its own. *)

From Stdlib Require Import Bool List String ZArith Lia Permutation.
From Stdlib Require Import Floats.SpecFloat.
Import ListNotations.
Open Scope string_scope.
Open Scope list_scope.

Set Implicit Arguments.
Set Warnings "-register-all".

(** ** Values *)

(** Decoded data, as [JSON.parse] or any other decoder hands it over,
    extended with [undefined].  A number is an IEEE 754 double.  An array is
    dense.  An object is a plain object: its prototype is [Object.prototype]
    and [own] lists its own enumerable data properties in enumeration
    order (first binding of a key wins on lookup; a well-formed object has
    no repeated key, see [wf_value]). *)
Inductive value : Type :=
| VUndefined
| VNull
| VBoolean (b : bool)
| VNumber (x : spec_float)
| VString (s : string)
| VArray (elems : list value)
| VObject (own : list (string * value)).

(** What a parameter of type [unknown] can hold when a check runs on decoded
    data: a data value, or one of the built-in function objects that a
    property read finds on [Object.prototype] (named by its property name). *)
Inductive unknown : Type :=
| Data (v : value)
| Builtin (name : string).

Coercion Data : value >-> unknown.

(** The property names of [Object.prototype].  None is enumerable and each
    holds a function.  The repository runs on Deno, which removes the
    [__proto__] accessor from [Object.prototype]. *)
Definition ObjectPrototype : list string :=
  [ "constructor"; "__defineGetter__"; "__defineSetter__"; "hasOwnProperty";
    "__lookupGetter__"; "__lookupSetter__"; "isPrototypeOf";
    "propertyIsEnumerable"; "toString"; "valueOf"; "toLocaleString" ].

Definition mem (k : string) (ks : list string) : bool :=
  existsb (String.eqb k) ks.

Fixpoint lookup {A} (k : string) (l : list (string * A)) : option A :=
  match l with
  | [] => None
  | (k', a) :: r => if String.eqb k k' then Some a else lookup k r
  end.

Definition keys {A} (l : list (string * A)) : list string := map fst l.

(** [typeof x] *)
Definition typeof (x : unknown) : string :=
  match x with
  | Data VUndefined => "undefined"
  | Data (VBoolean _) => "boolean"
  | Data (VNumber _) => "number"
  | Data (VString _) => "string"
  | Data VNull | Data (VArray _) | Data (VObject _) => "object"
  | Builtin _ => "function"
  end.

(** [Array.isArray(x)] *)
Definition Array_isArray (x : unknown) : bool :=
  match x with Data (VArray _) => true | _ => false end.

(** [Number.isFinite(x)]: false unless [x] is a number, then false on NaN
    and on the two infinities. *)
Definition Number_isFinite (x : unknown) : bool :=
  match x with
  | Data (VNumber (S754_zero _)) | Data (VNumber (S754_finite _ _ _)) => true
  | _ => false
  end.

(** [key in x], for [x] a plain object: own properties first, then the
    prototype chain. *)
Definition has_property (x : unknown) (key : string) : bool :=
  match x with
  | Data (VObject own) => mem key (keys own) || mem key ObjectPrototype
  | _ => false
  end.

(** [x[key]], for [x] a plain object: the own property, else the function
    inherited from [Object.prototype], else [undefined]. *)
Definition get_property (x : unknown) (key : string) : unknown :=
  match x with
  | Data (VObject own) =>
      match lookup key own with
      | Some v => Data v
      | None => if mem key ObjectPrototype then Builtin key else Data VUndefined
      end
  | _ => Data VUndefined
  end.

(** The elements of [x], for [x] an array. *)
Definition elements (x : unknown) : list value :=
  match x with
  | Data (VArray elems) => elems
  | _ => []
  end.

(** The keys [for (const k in x)] visits, for [x] a plain object: its own
    enumerable keys (nothing on [Object.prototype] is enumerable). *)
Definition for_in_keys (x : unknown) : list string :=
  match x with
  | Data (VObject own) => keys own
  | _ => []
  end.

(** No key of an object is repeated, at any depth. *)
Fixpoint nodupb (ks : list string) : bool :=
  match ks with
  | [] => true
  | k :: r => negb (mem k r) && nodupb r
  end.

Fixpoint wf_value (v : value) : bool :=
  match v with
  | VArray elems => forallb wf_value elems
  | VObject own =>
      nodupb (keys own) &&
      (fix wf_own (l : list (string * value)) : bool :=
         match l with
         | [] => true
         | (_, w) :: r => wf_value w && wf_own r
         end) own
  | _ => true
  end.

(** ** Primitive checkers *)

Definition isString (input : unknown) : bool :=
  String.eqb (typeof input) "string".

Definition isNumber (input : unknown) : bool :=
  Number_isFinite input.

Definition isNull (input : unknown) : bool :=
  match input with Data VNull => true | _ => false end.

Definition isArray (input : unknown) : bool :=
  Array_isArray input.

Definition isObject (input : unknown) : bool :=
  negb (isNull input) && String.eqb (typeof input) "object"
  && negb (Array_isArray input).

Definition isBoolean (input : unknown) : bool :=
  String.eqb (typeof input) "boolean".

Definition isUndefined (input : unknown) : bool :=
  match input with Data VUndefined => true | _ => false end.

(** ** Effects: the console and exceptions *)

Inductive error : Type :=
| Error (message : string)
| TypeError (message : string)
| RangeError (message : string).

Inductive outcome (A : Type) : Type :=
| Returned (a : A)
| Thrown (e : error).

Arguments Thrown {A} e.

(** One [console.warn] line: the template and the values of its holes. *)
Inductive diagnostic : Type :=
| WarnNotAnArray (typename : string)
| WarnElement (typename : string) (entry : unknown) (expected : string)
| WarnNotAnObject (typename : string)
| WarnUnknownProperty (typename inputProperty : string)
| WarnMissingProperty (typename property expected : string)
| WarnProperty (typename property : string) (field : unknown)
               (expected : string).

Definition console : Type := list diagnostic.

Definition M (A : Type) : Type := console -> outcome A * console.

Definition ret {A} (a : A) : M A := fun c => (Returned a, c).

Definition throw {A} (e : error) : M A := fun c => (Thrown e, c).

Definition bind {A B} (m : M A) (k : A -> M B) : M B :=
  fun c =>
    match m c with
    | (Returned a, c') => k a c'
    | (Thrown e, c') => (Thrown e, c')
    end.

Declare Scope shape_scope.
Delimit Scope shape_scope with shape.
Notation "x <- m ;; k" := (bind m (fun x => k))
  (at level 61, m at next level, right associativity) : shape_scope.
Notation "m ;;; k" := (bind m (fun _ => k))
  (at level 61, right associativity) : shape_scope.
Open Scope shape_scope.

(** The holes of a line that are converted with [ToString] and can throw
    (a [typename] or a property name is a string already, and [typeof]
    never throws). *)
Definition holes (d : diagnostic) : list unknown :=
  match d with
  | WarnElement _ entry _ => [entry]
  | WarnProperty _ _ field _ => [field]
  | _ => []
  end.

(** ** The engine *)

(** What the engine leaves open.  [ToString] of an array goes through
    [Array.prototype.join], which converts the elements in turn and so
    recurses once per level of nesting; the stack bounds that recursion.
    [join_depth] is the number of levels below an outermost array that the
    engine still converts when a diagnostic is formatted.  It depends on the
    engine and on the stack in use, and nothing is assumed of it.  (The
    recursion of a check follows the descriptor, whose depth the program
    fixes; the recursion of the conversion follows the input.) *)
Class Engine : Type := { join_depth : nat }.

(** The exception of an object that yields no primitive. *)
Definition conversion_error : error :=
  TypeError "Cannot convert object to primitive value".

(** The exception of a conversion that runs out of stack. *)
Definition stack_error : error :=
  RangeError "Maximum call stack size exceeded".

(** [ToString(v)], as a template literal applies it to a hole: the exception
    it ends with, if any, when [budget] nested calls of [join] fit the
    stack.  A primitive always converts.  An array joins the conversions of
    its elements, left to right, one level further down.  A plain object
    goes through [ToPrimitive], which tries [toString] then [valueOf]: an
    own [toString] holds data and is not callable, and [valueOf] (own, not
    callable, or inherited, returning the object itself) yields no
    primitive, so the conversion throws exactly when the object has an own
    [toString]; otherwise the inherited [toString] prints it without a look
    at its properties. *)
Fixpoint ToString_error (budget : nat) (v : value) {struct v} : option error :=
  match v with
  | VArray elems =>
      match budget with
      | O => Some stack_error
      | S budget' =>
          (fix join (l : list value) : option error :=
             match l with
             | [] => None
             | e :: r =>
                 match ToString_error budget' e with
                 | Some err => Some err
                 | None => join r
                 end
             end) elems
      end
  | VObject own =>
      if mem "toString" (keys own) then Some conversion_error else None
  | _ => None
  end.

Section Conversion.
Context {E : Engine}.

(** The exception the conversion of a hole ends with, if any; a function
    prints its source. *)
Definition hole_error (x : unknown) : option error :=
  match x with
  | Data v => ToString_error (S join_depth) v
  | Builtin _ => None
  end.

(** [ToString(v)] completes normally. *)
Definition stringifies_value (v : value) : bool :=
  match ToString_error (S join_depth) v with
  | None => true
  | Some _ => false
  end.

Definition stringifies (x : unknown) : bool :=
  match hole_error x with
  | None => true
  | Some _ => false
  end.

(** The holes of a template are converted left to right; the first
    exception ends the evaluation. *)
Fixpoint holes_error (xs : list unknown) : option error :=
  match xs with
  | [] => None
  | x :: r =>
      match hole_error x with
      | Some e => Some e
      | None => holes_error r
      end
  end.

(** [console.warn(`...`)]: the template literal is evaluated first, and a
    hole whose conversion throws aborts with that exception before anything
    is written. *)
Definition console_warn (d : diagnostic) : M unit :=
  match holes_error (holes d) with
  | None => fun c => (Returned tt, (c ++ [d]))
  | Some e => throw e
  end.

End Conversion.

(** How a computation ends (a returned value or a throw) when it starts from
    a given console. *)
Definition result {A} (m : M A) (c : console) : outcome A := fst (m c).

(** A loop body either goes on to the next iteration ([None]) or leaves the
    enclosing function with [return r] ([Some r]). *)
Fixpoint for_each {K R} (ks : list K) (body : K -> M (option R))
  : M (option R) :=
  match ks with
  | [] => ret None
  | k :: rest =>
      r <- body k ;;
      match r with
      | Some b => ret (Some b)
      | None => for_each rest body
      end
  end.

(** [elems.every(callback)] on a dense array: stops at the first element the
    callback rejects. *)
Fixpoint every (elems : list value) (callback : unknown -> M bool) : M bool :=
  match elems with
  | [] => ret true
  | entry :: rest =>
      ok <- callback (Data entry) ;;
      if ok then every rest callback else ret false
  end.

(** ** Shapes *)

(** The fields of [TypeShape] a check reads.  [optional] is [None] where the
    builder leaves the field out of the object it returns (reading it gives
    [undefined]).  The kind-specific fields [inner], [members] and
    [properties] only keep a reference to the builder's argument and no
    check reads them. *)
Record TypeShape : Type := mkShape {
  typename : string;
  checkFn : unknown -> M bool;
  optional : option bool;
}.

(** [!!shape.optional] *)
Definition isOptional (shape : TypeShape) : bool :=
  match optional shape with
  | Some b => b
  | None => false
  end.

(** A property map: the own enumerable properties of the object literal
    handed to [object], in enumeration order; its prototype is
    [Object.prototype].  A loop [for (const property in properties)] visits
    the entries in turn, and [properties[property]] is the shape of the
    entry it is at. *)
Definition ObjectProperties : Type := list (string * TypeShape).

(** [key in properties] *)
Definition in_properties (key : string) (properties : ObjectProperties) : bool :=
  mem key (keys properties) || mem key ObjectPrototype.

Module Shapes.

Definition number : TypeShape :=
  {| typename := "number";
     checkFn := fun input => ret (isNumber input);
     optional := None |}.

Definition string : TypeShape :=
  {| typename := "string";
     checkFn := fun input => ret (isString input);
     optional := None |}.

Definition boolean : TypeShape :=
  {| typename := "boolean";
     checkFn := fun input => ret (isBoolean input);
     optional := None |}.

Definition nullable (shape : TypeShape) : TypeShape :=
  {| typename := (typename shape ++ " | null")%string;
     checkFn := fun input =>
       if isNull input then ret true else checkFn shape input;
     optional := None |}.

Section WithEngine.
Context {E : Engine}.

Definition array (shape : TypeShape) : TypeShape :=
  let typename_ := ("Array<" ++ typename shape ++ ">")%string in
  {| typename := typename_;
     checkFn := fun input =>
       if negb (isArray input) then
         console_warn (WarnNotAnArray typename_) ;;;
         ret false
       else
         every (elements input) (fun entry =>
           ok <- checkFn shape entry ;;
           if negb ok then
             console_warn (WarnElement typename_ entry (typename shape)) ;;;
             ret false
           else ret true);
     optional := None |}.

(** The check of an object shape named [typename_] over [properties]. *)
Definition object_checkFn (typename_ : String.string)
    (properties : ObjectProperties) (input : unknown) : M bool :=
  if negb (isObject input) then
    console_warn (WarnNotAnObject typename_) ;;;
    ret false
  else
    unknown_ <- for_each (for_in_keys input) (fun inputProperty =>
      if negb (in_properties inputProperty properties) then
        console_warn (WarnUnknownProperty typename_ inputProperty) ;;;
        ret (Some false)
      else ret None) ;;
    match unknown_ with
    | Some r => ret r
    | None =>
        declared <- for_each properties (fun '(property, shape) =>
          let field := get_property input property in
          if negb (has_property input property) && negb (isOptional shape)
          then
            console_warn
              (WarnMissingProperty typename_ property (typename shape)) ;;;
            ret (Some false)
          else
            ok <- checkFn shape field ;;
            if negb ok then
              console_warn
                (WarnProperty typename_ property field (typename shape)) ;;;
              ret (Some false)
            else ret None) ;;
        match declared with
        | Some r => ret r
        | None => ret true
        end
    end.

(** [object(nameOrProps, maybeProperties?)], the implementation behind the
    two overloads [object(properties)] and [object(name, properties)]. *)
Definition object (nameOrProps : String.string + ObjectProperties)
    (maybeProperties : option ObjectProperties) : outcome TypeShape :=
  match
    match nameOrProps with
    | inl name_ =>
        match maybeProperties with
        | Some properties => Returned (Some name_, properties)
        | None => Thrown (Error "Bad arguments somehow")
        end
    | inr properties => Returned (None, properties)
    end
  with
  | Thrown e => Thrown e
  | Returned (name_, properties) =>
      let typename_ :=
        match name_ with None => "Object" | Some n => n end in
      Returned {| typename := typename_;
                  checkFn := object_checkFn typename_ properties;
                  optional := None |}
  end.

End WithEngine.

Definition optional (shape : TypeShape) : TypeShape :=
  mkShape (typename shape ++ " | undefined")%string
          (fun input =>
             if isUndefined input then ret true else checkFn shape input)
          (Some true).

End Shapes.

Section Checks.
Context {E : Engine}.

(** ** Descriptors produced by the builders *)

(** [Built shape]: [shape] is the result of a builder call whose shape
    arguments are themselves results of builder calls.  The two constructors for [object]
    are its two overloads. *)
Inductive Built : TypeShape -> Prop :=
| Built_string : Built Shapes.string
| Built_number : Built Shapes.number
| Built_boolean : Built Shapes.boolean
| Built_optional shape : Built shape -> Built (Shapes.optional shape)
| Built_nullable shape : Built shape -> Built (Shapes.nullable shape)
| Built_array shape : Built shape -> Built (Shapes.array shape)
| Built_object properties shape :
    BuiltProperties properties ->
    Shapes.object (inr properties) None = Returned shape ->
    Built shape
| Built_named_object name properties shape :
    BuiltProperties properties ->
    Shapes.object (inl name) (Some properties) = Returned shape ->
    Built shape
with BuiltProperties : ObjectProperties -> Prop :=
| BuiltProperties_nil : BuiltProperties []
| BuiltProperties_cons property shape properties :
    Built shape ->
    BuiltProperties properties ->
    BuiltProperties ((property, shape) :: properties).

Scheme Built_mut := Minimality for Built Sort Prop
  with BuiltProperties_mut := Minimality for BuiltProperties Sort Prop.

(** The double nearest to an integer. *)
Definition number_of_Z (z : Z) : spec_float :=
  match z with
  | Z0 => S754_zero false
  | Zpos p => binary_round 53 1024 false p 0
  | Zneg p => binary_round 53 1024 true p 0
  end.

Definition NaN : value := VNumber S754_nan.
Definition Infinity : value := VNumber (S754_infinity false).
Definition NegInfinity : value := VNumber (S754_infinity true).
Definition num (z : Z) : value := VNumber (number_of_Z z).

(** [o.checkFn(input)] for a descriptor that a builder call [o] produces: a
    builder that throws never gets to the check. *)
Definition check (o : outcome TypeShape) (input : unknown) : M bool :=
  match o with
  | Returned shape => checkFn shape input
  | Thrown e => throw e
  end.

(** ** The descriptors and inputs of the examples *)

(** [object({a: string()})] *)
Definition shape_a : outcome TypeShape :=
  Shapes.object (inr [("a", Shapes.string)]) None.

(** [object({a: string(), b: optional(number())})] *)
Definition shape_a_optb : outcome TypeShape :=
  Shapes.object
    (inr [("a", Shapes.string); ("b", Shapes.optional Shapes.number)]) None.

(** [object({a: string(), b: number()})] *)
Definition shape_a_b : outcome TypeShape :=
  Shapes.object (inr [("a", Shapes.string); ("b", Shapes.number)]) None.

(** [object({toString: optional(string())})] *)
Definition shape_opt_toString : outcome TypeShape :=
  Shapes.object (inr [("toString", Shapes.optional Shapes.string)]) None.

(** The [User] descriptor of [main.ts]. *)
Definition User : outcome TypeShape :=
  Shapes.object (inl "User")
    (Some [ ("name", Shapes.string);
            ("age", Shapes.number);
            ("hasSignedIn", Shapes.boolean);
            ("permissions", Shapes.optional (Shapes.array Shapes.string)) ]).

(** [{"name":"jakob","age":29,"hasSignedIn":true,
      "permissions":["developer","admin"]}], parsed. *)
Definition parsed : value :=
  VObject [ ("name", VString "jakob");
            ("age", num 29);
            ("hasSignedIn", VBoolean true);
            ("permissions", VArray [VString "developer"; VString "admin"]) ].

Definition parsed_without_hasSignedIn : value :=
  VObject [ ("name", VString "jakob");
            ("age", num 29);
            ("permissions", VArray [VString "developer"; VString "admin"]) ].

Definition parsed_with_text_age : value :=
  VObject [ ("name", VString "jakob");
            ("age", VString "29");
            ("hasSignedIn", VBoolean true);
            ("permissions", VArray [VString "developer"; VString "admin"]) ].

Definition parsed_with_extra : value :=
  VObject [ ("name", VString "jakob");
            ("age", num 29);
            ("hasSignedIn", VBoolean true);
            ("permissions", VArray [VString "developer"; VString "admin"]);
            ("extra", num 1) ].

(** ** Notions used in the statements *)

(** [writes_only m]: what [m] returns and what it writes do not depend on
    the console it starts from, and it only appends. *)
Definition writes_only {A} (m : M A) : Prop :=
  exists (r : outcome A) (out : console),
    forall c, m c = (r, (c ++ out)).

(** The closed-shape loop over the keys of the input. *)
Definition unknown_property_loop (typename_ : string)
    (properties : ObjectProperties) (ks : list string) : M (option bool) :=
  for_each ks (fun inputProperty =>
    if negb (in_properties inputProperty properties) then
      console_warn (WarnUnknownProperty typename_ inputProperty) ;;;
      ret (Some false)
    else ret None).

(** One iteration of the loop over the declared properties. *)
Definition declared_property_body (typename_ : string) (input : unknown)
    (entry : string * TypeShape) : M (option bool) :=
  let '(property, shape) := entry in
  let field := get_property input property in
  if negb (has_property input property) && negb (isOptional shape) then
    console_warn (WarnMissingProperty typename_ property (typename shape)) ;;;
    ret (Some false)
  else
    ok <- checkFn shape field ;;
    if negb ok then
      console_warn (WarnProperty typename_ property field (typename shape)) ;;;
      ret (Some false)
    else ret None.

(** Every part of [v] converts to a string: no object inside [v], at any
    depth, has an own key [toString], and no array inside [v] nests deeper
    than the engine converts. *)
Fixpoint printable (v : value) : bool :=
  match v with
  | VArray elems => stringifies_value v && forallb printable elems
  | VObject own =>
      negb (mem "toString" (keys own)) &&
      (fix printable_own (l : list (string * value)) : bool :=
         match l with
         | [] => true
         | (_, w) :: r => printable w && printable_own r
         end) own
  | _ => true
  end.

Definition printable_unknown (x : unknown) : bool :=
  match x with
  | Data v => printable v
  | Builtin _ => true
  end.

(** [checkFn shape] returns a boolean on every printable input. *)
Definition returns_on_printable (shape : TypeShape) : Prop :=
  forall x, printable_unknown x = true ->
  forall c, exists b c', checkFn shape x c = (Returned b, c').

(** The property map of [User]. *)
Definition User_properties : ObjectProperties :=
  [ ("name", Shapes.string);
    ("age", Shapes.number);
    ("hasSignedIn", Shapes.boolean);
    ("permissions", Shapes.optional (Shapes.array Shapes.string)) ].

(** [accepts D x c]: the check of [D] returns true on [x]. *)
Definition accepts (D : TypeShape) (x : unknown) (c : console) : bool :=
  match result (checkFn D x) c with
  | Returned true => true
  | _ => false
  end.

(** Module-level [const D = builder(...)] declarations run in sequence; a
    builder that throws ends the module. *)
Definition and_then {A B} (o : outcome A) (k : A -> outcome B) : outcome B :=
  match o with
  | Returned a => k a
  | Thrown e => Thrown e
  end.

Notation "'const' x ':=' o 'in' k" := (and_then o (fun x => k))
  (at level 10, x name, o at level 100, k at level 200, only parsing)
  : shape_scope.

(** The descriptors of [bench.ts], down to [LoadDeviationsResponse]. *)
Definition LoadDeviationsResponse : outcome TypeShape :=
  const InternalNote :=
    Shapes.object (inl "InternalNote")
      (Some [ ("whatHappened", Shapes.string);
              ("actionsTaken", Shapes.string) ]) in
  const DeviationInfo :=
    Shapes.object (inl "DeviationInfo")
      (Some [ ("internalNote", InternalNote);
              ("isOnCallInvolved", Shapes.boolean);
              ("potentialSanctionNok", Shapes.optional Shapes.number);
              ("potentialCompensationNok", Shapes.optional Shapes.number);
              ("description", Shapes.optional Shapes.string);
              ("descriptionInEnglish", Shapes.optional Shapes.string);
              ("publishedToWebsite", Shapes.boolean);
              ("notifiedSubscribers", Shapes.optional Shapes.boolean);
              ("visibleFrom", Shapes.optional Shapes.string);
              ("visibleTo", Shapes.optional Shapes.string);
              ("relatedDeviationAlertId", Shapes.array Shapes.string) ]) in
  const UserInfo :=
    Shapes.object (inl "UserInfo")
      (Some [ ("id", Shapes.string);
              ("name", Shapes.string);
              ("email", Shapes.string) ]) in
  const Departure :=
    Shapes.object (inl "Departure")
      (Some [ ("departureId", Shapes.string);
              ("departureTime", Shapes.string);
              ("arrivalTime", Shapes.string);
              ("departureQuayId", Shapes.string);
              ("departureQuayName", Shapes.string);
              ("arrivalQuayId", Shapes.string);
              ("arrivalQuayName", Shapes.string);
              ("serviceJourneyId", Shapes.optional Shapes.string) ]) in
  const DepartureFilter :=
    Shapes.object (inl "DepartureFilter")
      (Some [ ("lineId", Shapes.string);
              ("blockId", Shapes.optional Shapes.string);
              ("blockName", Shapes.optional Shapes.string);
              ("from", Shapes.string);
              ("to", Shapes.optional Shapes.string);
              ("departures", Shapes.optional (Shapes.array Departure)) ]) in
  const DepartureChange :=
    Shapes.object (inl "DepartureChange")
      (Some [ ("departure", Departure);
              ("isCancelled", Shapes.boolean);
              ("isRestored", Shapes.boolean);
              ("newArrivalQuayId", Shapes.optional Shapes.string);
              ("newArrivalQuayName", Shapes.optional Shapes.string);
              ("newDepartureTime", Shapes.optional Shapes.string);
              ("newArrivalTime", Shapes.optional Shapes.string) ]) in
  const TravelDetail :=
    Shapes.object (inl "TravelDetail")
      (Some [ ("extraTripId", Shapes.string);
              ("departureTime", Shapes.string);
              ("arrivalTime", Shapes.string);
              ("departureQuayId", Shapes.string);
              ("departureQuayName", Shapes.string);
              ("arrivalQuayId", Shapes.string);
              ("arrivalQuayName", Shapes.string) ]) in
  const Deviation :=
    Shapes.object (inl "Deviation")
      (Some [ ("#type", Shapes.string);
              ("id", Shapes.string);
              ("lineId", Shapes.string);
              ("lineName", Shapes.string);
              ("publicCode", Shapes.string);
              ("info", DeviationInfo);
              ("reason", Shapes.optional Shapes.string);
              ("departureFilter", Shapes.optional DepartureFilter);
              ("changedDepartures",
               Shapes.optional (Shapes.array DepartureChange));
              ("travelDetails", Shapes.optional (Shapes.array TravelDetail));
              ("creator", UserInfo);
              ("createdAt", Shapes.string);
              ("updatedAt", Shapes.string) ]) in
  Shapes.object (inl "LoadDeviationsResponse")
    (Some [ ("deviations", Shapes.array Deviation) ]).

(** [quiet_on a m]: when [m] returns [a] it has written nothing. *)
Definition quiet_on {A} (a : A) (m : M A) : Prop :=
  forall c c', m c = (Returned a, c') -> c' = c.

(** [nested n]: the empty array inside [n] further arrays,
    [[[...[]...]]]. *)
Fixpoint nested (n : nat) : value :=
  match n with
  | O => VArray []
  | S n' => VArray [nested n']
  end.

(** An engine for the concrete instances: one with room for a thousand
    nested arrays. *)
Definition sample_engine : Engine := {| join_depth := 1000 |}.

(** [same_outcome m1 m2]: [m1] and [m2] end the same way, whatever console
    each starts from. *)
Definition same_outcome {A} (m1 m2 : M A) : Prop :=
  forall c1 c2, result m1 c1 = result m2 c2.

(** The typename a diagnostic line starts with. *)
Definition diagnostic_typename (d : diagnostic) : string :=
  match d with
  | WarnNotAnArray t | WarnElement t _ _ | WarnNotAnObject t
  | WarnUnknownProperty t _ | WarnMissingProperty t _ _
  | WarnProperty t _ _ _ => t
  end.

(** * Properties *)

(** ** Sanity checks of the embedding on the repository's own tests *)

Example number_of_Z_42 :
  number_of_Z 42 = S754_finite false 5910974510923776 (-47).
Proof. reflexivity. Qed.

Example test_Primitives_positive :
  result (checkFn Shapes.string (VString "test string")) [] = Returned true /\
  result (checkFn Shapes.number (num 100)) [] = Returned true /\
  result (checkFn Shapes.boolean (VBoolean false)) [] = Returned true /\
  result (check (Shapes.object (inr [("foo", Shapes.string)]) None)
            (VObject [("foo", VString "bar")])) [] = Returned true /\
  result (checkFn (Shapes.array Shapes.number) (VArray [num 0])) []
    = Returned true /\
  result (checkFn (Shapes.nullable Shapes.number) VNull) [] = Returned true /\
  result (checkFn (Shapes.nullable Shapes.number) (num 100)) []
    = Returned true.
Proof. repeat split; reflexivity. Qed.

Example test_Arrays :
  let StringArrayShape := Shapes.array Shapes.string in
  let NullableStringArrayShape :=
    Shapes.array (Shapes.nullable Shapes.string) in
  let nullableStringArray :=
    VArray [VString "a"; VString "b"; VNull; VString "c"] in
  result (checkFn StringArrayShape
            (VArray [VString "a"; VString "b"; VString "c"])) []
    = Returned true /\
  result (checkFn StringArrayShape (VArray [])) [] = Returned true /\
  result (checkFn StringArrayShape nullableStringArray) [] = Returned false /\
  result (checkFn NullableStringArrayShape nullableStringArray) []
    = Returned true.
Proof. repeat split; reflexivity. Qed.

Example test_Objects :
  let UserShape :=
    Shapes.object (inl "User")
      (Some [ ("name", Shapes.string); ("id", Shapes.number);
              ("age", Shapes.nullable Shapes.number);
              ("admin", Shapes.boolean);
              ("groups", Shapes.array Shapes.string) ]) in
  let groups := VArray [VString "g:182893174"; VString "g:73645823"] in
  result (check UserShape
     (VObject [ ("name", VString "jakob"); ("id", num 72937123);
                ("age", VNull); ("admin", VBoolean false);
                ("groups", groups) ])) [] = Returned true /\
  result (check UserShape
     (VObject [ ("name", VString "jakob"); ("id", num 72937123);
                ("age", VNull); ("groups", groups) ])) [] = Returned false /\
  result (check UserShape
     (VObject [ ("name", VString "jakob"); ("id", VString "72937123");
                ("age", VNull); ("admin", VBoolean false);
                ("groups", groups) ])) [] = Returned false /\
  result (check UserShape
     (VObject [ ("name", VString "jakob"); ("id", num 72937123);
                ("age", VNull); ("admin", VBoolean false);
                ("groups", VNull) ])) [] = Returned false /\
  result (check UserShape
     (VObject [ ("name", VString "jakob"); ("id", num 72937123);
                ("age", VNull); ("admin", VBoolean false);
                ("groups", groups); ("lastSignedIn", num 1744793026) ])) []
    = Returned false /\
  result (check UserShape (VString "jakob")) [] = Returned false.
Proof. repeat split; reflexivity. Qed.

(** ** The console is write-only *)

Lemma writes_only_ret {A} (a : A) : writes_only (ret a).
Proof.
  exists (Returned a), []. intro c. unfold ret. now rewrite app_nil_r.
Qed.

Lemma writes_only_throw {A} (e : error) : writes_only (@throw A e).
Proof.
  exists (Thrown e), []. intro c. unfold throw. now rewrite app_nil_r.
Qed.

Lemma writes_only_bind {A B} (m : M A) (k : A -> M B) :
  writes_only m -> (forall a, writes_only (k a)) -> writes_only (bind m k).
Proof.
  intros [r [out Hm]] Hk. destruct r as [a | e].
  - destruct (Hk a) as [r' [out' Hka]].
    exists r', (out ++ out'). intro c.
    unfold bind. rewrite Hm, Hka. now rewrite app_assoc.
  - exists (Thrown e), out. intro c. unfold bind. now rewrite Hm.
Qed.

Lemma writes_only_console_warn (d : diagnostic) :
  writes_only (console_warn d).
Proof.
  unfold console_warn. destruct (holes_error (holes d)) as [e |].
  - apply writes_only_throw.
  - exists (Returned tt), [d]. reflexivity.
Qed.

Lemma writes_only_for_each {K R} (ks : list K) (body : K -> M (option R)) :
  Forall (fun k => writes_only (body k)) ks ->
  writes_only (for_each ks body).
Proof.
  induction 1 as [| k ks Hk _ IH]; cbn [for_each].
  - apply writes_only_ret.
  - apply writes_only_bind; [exact Hk |].
    intros [r |]; [apply writes_only_ret | exact IH].
Qed.

Lemma writes_only_every (elems : list value) (callback : unknown -> M bool) :
  (forall x, writes_only (callback x)) -> writes_only (every elems callback).
Proof.
  intro Hcb. induction elems as [| entry rest IH]; cbn [every].
  - apply writes_only_ret.
  - apply writes_only_bind; [apply Hcb |].
    intros [|]; [exact IH | apply writes_only_ret].
Qed.

Lemma writes_only_result {A} (m : M A) :
  writes_only m -> forall c c', result m c = result m c'.
Proof.
  intros [r [out Hm]] c c'. unfold result. now rewrite !Hm.
Qed.

Create HintDb shapes.
#[local] Hint Resolve writes_only_ret writes_only_throw writes_only_bind
  writes_only_console_warn writes_only_every writes_only_for_each : shapes.

Lemma writes_only_object_checkFn typename_ properties input :
  Forall (fun kv => forall x, writes_only (checkFn (snd kv) x)) properties ->
  writes_only (Shapes.object_checkFn typename_ properties input).
Proof.
  intro Hprops. unfold Shapes.object_checkFn.
  destruct (negb (isObject input)); [auto with shapes |].
  apply writes_only_bind.
  - apply writes_only_for_each. apply Forall_forall. intros k _.
    destruct (negb (in_properties k properties)); auto with shapes.
  - intros [r |]; [auto with shapes |].
    apply writes_only_bind.
    + apply writes_only_for_each.
      apply Forall_forall. intros [property shape] Hin.
      rewrite Forall_forall in Hprops. specialize (Hprops _ Hin). cbn in Hprops.
      destruct (negb (has_property input property) && negb (isOptional shape));
        [auto with shapes |].
      apply writes_only_bind; [apply Hprops |].
      intros [|]; cbn [negb]; auto with shapes.
    + intros [r |]; auto with shapes.
Qed.

Lemma Built_writes_only shape :
  Built shape -> forall x, writes_only (checkFn shape x).
Proof.
  intro HB.
  induction HB using Built_mut with
    (P0 := fun properties =>
       Forall (fun kv => forall x, writes_only (checkFn (snd kv) x)) properties);
    intros; cbn [checkFn Shapes.string Shapes.number Shapes.boolean
                 Shapes.optional Shapes.nullable Shapes.array].
  - apply writes_only_ret.
  - apply writes_only_ret.
  - apply writes_only_ret.
  - destruct (isUndefined x); auto with shapes.
  - destruct (isNull x); auto with shapes.
  - destruct (negb (isArray x)); [auto with shapes |].
    apply writes_only_every. intro e.
    apply writes_only_bind; [apply IHHB |].
    intros [|]; cbn [negb]; auto with shapes.
  - match goal with H : Shapes.object _ _ = _ |- _ =>
      cbn in H; injection H as <- end.
    cbn [checkFn]. now apply writes_only_object_checkFn.
  - match goal with H : Shapes.object _ _ = _ |- _ =>
      cbn in H; injection H as <- end.
    cbn [checkFn]. now apply writes_only_object_checkFn.
  - constructor.
  - constructor; assumption.
Qed.

(** ** The modifiers on the two sentinels *)

(** C3.  For every descriptor [S], built or not: the check of [optional(S)]
    returns true on [undefined] and writes nothing, and on [null] it is the
    check of [S] on [null]; the check of [nullable(S)] returns true on
    [null] and writes nothing, and on [undefined] it is the check of [S] on
    [undefined]. *)
Theorem optional_nullable_sentinels (S : TypeShape) :
  (forall c, checkFn (Shapes.optional S) VUndefined c = (Returned true, c)) /\
  checkFn (Shapes.optional S) VNull = checkFn S VNull /\
  (forall c, checkFn (Shapes.nullable S) VNull c = (Returned true, c)) /\
  checkFn (Shapes.nullable S) VUndefined = checkFn S VUndefined.
Proof. repeat split. Qed.

(** [optional] does not by itself accept [null], nor [nullable]
    [undefined]. *)
Example optional_string_rejects_null :
  forall c, checkFn (Shapes.optional Shapes.string) VNull c
            = (Returned false, c).
Proof. reflexivity. Qed.

Example nullable_string_rejects_undefined :
  forall c, checkFn (Shapes.nullable Shapes.string) VUndefined c
            = (Returned false, c).
Proof. reflexivity. Qed.

(** ** The primitive descriptors *)

Lemma isString_iff x : isString x = true <-> exists s, x = Data (VString s).
Proof.
  split.
  - destruct x as [[| | b | f | s | l | o] | n]; cbn; try discriminate.
    intros _. now exists s.
  - intros [s ->]. reflexivity.
Qed.

Lemma isBoolean_iff x : isBoolean x = true <-> exists b, x = Data (VBoolean b).
Proof.
  split.
  - destruct x as [[| | b | f | s | l | o] | n]; cbn; try discriminate.
    intros _. now exists b.
  - intros [b ->]. reflexivity.
Qed.

Lemma isNumber_iff x :
  isNumber x = true <->
  exists f, x = Data (VNumber f) /\ f <> S754_nan /\
            forall sign, f <> S754_infinity sign.
Proof.
  split.
  - destruct x as [[| | b | f | s | l | o] | n]; cbn; try discriminate.
    destruct f; try discriminate; intros _; eexists;
      (split; [reflexivity | split; [discriminate | intros; discriminate]]).
  - intros [f [-> [Hnan Hinf]]]. destruct f; try reflexivity.
    + now destruct (Hinf s).
    + now destruct Hnan.
Qed.

(** C5.  A primitive descriptor's check returns a boolean, never throws and
    writes nothing; it returns true exactly on the values of its own kind,
    with no coercion: [string()] on strings, [boolean()] on booleans,
    [number()] on numbers that are neither NaN nor infinite.  So [number()]
    rejects NaN and both infinities and the text "42" and accepts 42, and
    [string()] rejects 42. *)
Theorem primitive_check_exact_kind (x : unknown) (c : console) :
  (exists b, checkFn Shapes.string x c = (Returned b, c)) /\
  (exists b, checkFn Shapes.number x c = (Returned b, c)) /\
  (exists b, checkFn Shapes.boolean x c = (Returned b, c)) /\
  (checkFn Shapes.string x c = (Returned true, c)
   <-> exists s, x = Data (VString s)) /\
  (checkFn Shapes.number x c = (Returned true, c)
   <-> exists f, x = Data (VNumber f) /\ f <> S754_nan /\
                 forall sign, f <> S754_infinity sign) /\
  (checkFn Shapes.boolean x c = (Returned true, c)
   <-> exists b, x = Data (VBoolean b)) /\
  checkFn Shapes.number NaN c = (Returned false, c) /\
  checkFn Shapes.number Infinity c = (Returned false, c) /\
  checkFn Shapes.number NegInfinity c = (Returned false, c) /\
  checkFn Shapes.number (num 42) c = (Returned true, c) /\
  checkFn Shapes.number (VString "42") c = (Returned false, c) /\
  checkFn Shapes.string (num 42) c = (Returned false, c).
Proof.
  assert (Hret : forall b, (@ret bool b c = (Returned true, c)) <-> b = true).
  { intro b. unfold ret. split; [now intros [= ->] | now intros ->]. }
  repeat match goal with |- _ /\ _ => split end;
    try reflexivity; try (eexists; reflexivity);
    cbn [checkFn Shapes.string Shapes.number Shapes.boolean];
    rewrite Hret.
  - apply isString_iff.
  - apply isNumber_iff.
  - apply isBoolean_iff.
Qed.

(** ** The [optional] flag *)

(** C6.  For a built descriptor, [optional] reads as true exactly when the
    descriptor is the result of the [optional] modifier: it does for
    [optional(S)], and does not for [string()], [number()], [boolean()],
    [nullable(S)], [array(S)] and whatever [object] returns.  The flag is
    not taken over from an inner descriptor: [nullable] and [array] of an
    optional descriptor are not optional. *)
Theorem isOptional_iff_optional_modifier (S : TypeShape) (HS : Built S)
    (nameOrProps : string + ObjectProperties)
    (maybeProperties : option ObjectProperties) :
  (isOptional S = true <->
   exists inner, Built inner /\ S = Shapes.optional inner) /\
  isOptional (Shapes.optional S) = true /\
  isOptional Shapes.string = false /\
  isOptional Shapes.number = false /\
  isOptional Shapes.boolean = false /\
  isOptional (Shapes.nullable S) = false /\
  isOptional (Shapes.array S) = false /\
  match Shapes.object nameOrProps maybeProperties with
  | Returned shape => isOptional shape = false
  | Thrown _ => True
  end /\
  isOptional (Shapes.nullable (Shapes.optional S)) = false /\
  isOptional (Shapes.array (Shapes.optional S)) = false.
Proof.
  split; [split | repeat split].
  - intro Hopt.
    destruct HS as [ | | | inner Hinner | inner _ | inner _
                   | properties shape _ Hobj | name properties shape _ Hobj ];
      try discriminate Hopt.
    + now exists inner.
    + cbn in Hobj. injection Hobj as <-. discriminate Hopt.
    + cbn in Hobj. injection Hobj as <-. discriminate Hopt.
  - intros [inner [_ ->]]. reflexivity.
  - destruct nameOrProps as [name | properties];
      destruct maybeProperties as [properties' |]; cbn; trivial.
Qed.

(** The builders other than [optional] leave the flag out. *)
Lemma optional_field_of_builders :
  optional Shapes.string = None /\
  optional Shapes.number = None /\
  optional Shapes.boolean = None /\
  (forall S, optional (Shapes.nullable S) = None) /\
  (forall S, optional (Shapes.array S) = None) /\
  (forall nameOrProps maybeProperties S,
     Shapes.object nameOrProps maybeProperties = Returned S ->
     optional S = None) /\
  (forall S, optional (Shapes.optional S) = Some true).
Proof.
  repeat match goal with |- _ /\ _ => split end; try reflexivity.
  intros [name | properties] [maybe |] S H; cbn in H;
    try discriminate H; now injection H as <-.
Qed.

(** ** Determinism *)

(** X22.  For a built descriptor [D] and an input [v], the outcome of the
    check and the lines it writes are fixed by [D] and [v]: whatever the console
    holds when the check starts, the check ends with the same outcome (a
    boolean, or a throw) and has appended the same lines. *)
Lemma check_deterministic (D : TypeShape) (HD : Built D) (v : unknown) :
  exists (r : outcome bool) (out : console),
    forall c, checkFn D v c = (r, (c ++ out)).
Proof. exact (Built_writes_only HD v). Qed.

(** C9.  On [[{toString: 1}]] the check of [array(string())] has no
    boolean verdict, from whatever console it starts: the member check
    returns false on the element, and formatting the diagnostic for it
    turns the [return false] that follows into a thrown [TypeError].  The
    diagnostic decides how the check ends. *)
Theorem diagnostic_replaces_verdict (c : console) :
  checkFn Shapes.string (VObject [("toString", num 1)]) c
    = (Returned false, c) /\
  checkFn (Shapes.array Shapes.string)
          (VArray [VObject [("toString", num 1)]]) c
    = (Thrown (TypeError "Cannot convert object to primitive value"), c) /\
  ~ exists b : bool,
      result (checkFn (Shapes.array Shapes.string)
                (VArray [VObject [("toString", num 1)]])) c
      = Returned b.
Proof.
  repeat split. intros [b H]. discriminate H.
Qed.

(** ** Arrays *)

Lemma every_true_iff (callback : unknown -> M bool) :
  (forall x, writes_only (callback x)) ->
  forall elems c,
    result (every elems callback) c = Returned true <->
    Forall (fun e => result (callback (Data e)) [] = Returned true) elems.
Proof.
  intro Hcb. induction elems as [| entry rest IH]; intro c.
  - cbn. split; [constructor | reflexivity].
  - destruct (Hcb (Data entry)) as [r [out Hr]].
    assert (Hhead : result (callback (Data entry)) [] = r)
      by (unfold result; now rewrite Hr).
    unfold result. cbn [every]. unfold bind at 1. rewrite Hr.
    destruct r as [[|] | e].
    + fold (result (every rest callback) (c ++ out)). rewrite IH.
      split; [intro H; now constructor | intro H; now inversion H].
    + cbn. split; [discriminate |].
      intro H. inversion H; subst. unfold result in Hhead. congruence.
    + cbn. split; [discriminate |].
      intro H. inversion H; subst. unfold result in Hhead. congruence.
Qed.

(** The callback that [array] hands to [every] returns true exactly when
    the member check does. *)
Lemma element_callback_true (S : TypeShape) (tn : string) (x : unknown) c :
  result (ok <- checkFn S x ;;
          if negb ok then
            console_warn (WarnElement tn x (typename S)) ;;; ret false
          else ret true) c = Returned true
  <-> result (checkFn S x) c = Returned true.
Proof.
  unfold result, bind at 1.
  destruct (checkFn S x c) as [[[|] | e] c']; cbn [negb fst].
  - reflexivity.
  - unfold bind. destruct (console_warn _ c') as [[u | e] c'']; cbn;
      split; discriminate.
  - reflexivity.
Qed.

(** C4.  For a built descriptor [S]: the check of [array(S)] returns true
    on [xs] exactly when [xs] is an array each of whose elements the check
    of [S] returns true on; it returns true on the empty array, and false
    on anything that is not an array. *)
Theorem array_check_iff (S : TypeShape) (HS : Built S)
    (xs : unknown) (c : console) :
  (result (checkFn (Shapes.array S) xs) c = Returned true <->
   exists elems,
     xs = Data (VArray elems) /\
     Forall (fun e => result (checkFn S (Data e)) [] = Returned true) elems) /\
  result (checkFn (Shapes.array S) (VArray [])) c = Returned true /\
  (isArray xs = false ->
   result (checkFn (Shapes.array S) xs) c = Returned false).
Proof.
  split; [| split].
  - cbn [checkFn Shapes.array].
    destruct (isArray xs) eqn:Harr; cbn [negb].
    + assert (Hxs : exists elems, xs = Data (VArray elems)).
      { destruct xs as [[| | b | f | s | l | o] | n]; try discriminate Harr.
        now exists l. }
      destruct Hxs as [elems ->]. cbn [elements].
      rewrite every_true_iff.
      * split.
        -- intro H. exists elems. split; [reflexivity |].
           eapply Forall_impl; [| exact H].
           intros e He. now apply element_callback_true in He.
        -- intros [elems' [[= <-] H]].
           eapply Forall_impl; [| exact H].
           intros e He. now apply element_callback_true.
      * intro x. apply writes_only_bind; [now apply Built_writes_only |].
        intros [|]; cbn [negb]; auto with shapes.
    + split; [discriminate |].
      intros [elems [-> _]]. discriminate Harr.
  - reflexivity.
  - intro Harr. cbn [checkFn Shapes.array]. now rewrite Harr.
Qed.

(** ** The end-to-end scenario of [main.ts] *)

(** C8.  The [User] descriptor accepts the parsed document, and rejects it
    once [hasSignedIn] is removed, once [age] holds the text "29", and once
    the key [extra] is added. *)
Theorem User_scenario (c : console) :
  result (check User parsed) c = Returned true /\
  result (check User parsed_without_hasSignedIn) c = Returned false /\
  result (check User parsed_with_text_age) c = Returned false /\
  result (check User parsed_with_extra) c = Returned false.
Proof. repeat split. Qed.

(** What each rejection writes. *)
Example User_scenario_diagnostics :
  snd (check User parsed []) = [] /\
  snd (check User parsed_without_hasSignedIn [])
    = [WarnMissingProperty "User" "hasSignedIn" "boolean"] /\
  snd (check User parsed_with_text_age [])
    = [WarnProperty "User" "age" (VString "29") "number"] /\
  snd (check User parsed_with_extra [])
    = [WarnUnknownProperty "User" "extra"].
Proof. repeat split. Qed.

(** ** Loops *)

Lemma bind_ext {A B} (m1 m2 : M A) (k1 k2 : A -> M B) c :
  m1 c = m2 c ->
  (forall a c', k1 a c' = k2 a c') ->
  bind m1 k1 c = bind m2 k2 c.
Proof.
  intros Hm Hk. unfold bind. rewrite Hm.
  destruct (m2 c) as [[a | e] c']; [apply Hk | reflexivity].
Qed.

Lemma for_each_ext {K R} (ks : list K) (body1 body2 : K -> M (option R)) :
  (forall k, In k ks -> forall c, body1 k c = body2 k c) ->
  forall c, for_each ks body1 c = for_each ks body2 c.
Proof.
  induction ks as [| k ks IH]; intros Hbody c; [reflexivity |].
  cbn [for_each]. apply bind_ext.
  - apply Hbody. now left.
  - intros [r |] c'; [reflexivity |].
    apply IH. intros k' Hk'. apply Hbody. now right.
Qed.

(** An iteration that goes on without writing can be left out. *)
Lemma for_each_skip {K R} (l1 l2 : list K) (k : K)
    (body : K -> M (option R)) :
  (forall c, body k c = (Returned None, c)) ->
  forall c, for_each (l1 ++ k :: l2) body c = for_each (l1 ++ l2) body c.
Proof.
  intro Hk. induction l1 as [| a l1 IH]; intro c.
  - cbn [app for_each]. unfold bind at 1. now rewrite Hk.
  - cbn [app for_each]. apply bind_ext; [reflexivity |].
    intros [r |] c'; [reflexivity | apply IH].
Qed.

(** A loop that leaves with [return r] does so in one of its iterations;
    one that runs to its end went on in every iteration. *)
Lemma for_each_Some_inv {K R} (ks : list K) (body : K -> M (option R)) r :
  forall c c',
    for_each ks body c = (Returned (Some r), c') ->
    exists k c1 c2, In k ks /\ body k c1 = (Returned (Some r), c2).
Proof.
  induction ks as [| k ks IH]; intros c c' H.
  - discriminate H.
  - cbn [for_each] in H. unfold bind at 1 in H.
    destruct (body k c) as [[[r' |] | e] c1] eqn:Hk.
    + injection H as -> ->. exists k, c, c'. split; [now left | exact Hk].
    + destruct (IH _ _ H) as [k' [d1 [d2 [Hin Hb]]]].
      exists k', d1, d2. split; [now right | exact Hb].
    + discriminate H.
Qed.

Lemma for_each_None_inv {K R} (ks : list K) (body : K -> M (option R)) :
  forall c c',
    for_each ks body c = (Returned None, c') ->
    forall k, In k ks -> exists c1 c2, body k c1 = (Returned None, c2).
Proof.
  induction ks as [| k ks IH]; intros c c' H k' Hin.
  - destruct Hin.
  - cbn [for_each] in H. unfold bind at 1 in H.
    destruct (body k c) as [[[r' |] | e] c1] eqn:Hk; try discriminate H.
    destruct Hin as [<- | Hin].
    + now exists c, c1.
    + exact (IH _ _ H _ Hin).
Qed.

Lemma mem_In k ks : mem k ks = true <-> In k ks.
Proof.
  unfold mem. rewrite existsb_exists. split.
  - intros [k' [Hin Heq]]. apply String.eqb_eq in Heq. now subst.
  - intro Hin. exists k. split; [exact Hin | apply String.eqb_refl].
Qed.

Lemma mem_false k ks : mem k ks = false <-> ~ In k ks.
Proof.
  rewrite <- mem_In. destruct (mem k ks); split; congruence.
Qed.

Lemma lookup_None {A} k (l : list (string * A)) :
  mem k (keys l) = false -> lookup k l = None.
Proof.
  induction l as [| [k' a] l IH]; [reflexivity |].
  cbn. destruct (String.eqb k k'); [discriminate | exact IH].
Qed.

Lemma lookup_skip {A} k k' (a : A) (l1 l2 : list (string * A)) :
  k <> k' -> lookup k (l1 ++ (k', a) :: l2) = lookup k (l1 ++ l2).
Proof.
  intro Hne. induction l1 as [| [k1 a1] l1 IH]; cbn.
  - apply String.eqb_neq in Hne. now rewrite Hne.
  - now rewrite IH.
Qed.

Lemma mem_keys_skip {A} k k' (a : A) (l1 l2 : list (string * A)) :
  k <> k' -> mem k (keys (l1 ++ (k', a) :: l2)) = mem k (keys (l1 ++ l2)).
Proof.
  intro Hne. unfold mem, keys. rewrite !map_app, !existsb_app. cbn.
  apply String.eqb_neq in Hne. now rewrite Hne.
Qed.

(** ** Objects: the closed-shape test and inherited names *)

Lemma isObject_VObject own : isObject (VObject own) = true.
Proof. reflexivity. Qed.

Lemma isObject_inv x : isObject x = true -> exists own, x = Data (VObject own).
Proof.
  destruct x as [[| | b | f | s | l | o] | n]; cbn; try discriminate.
  intros _. now exists o.
Qed.

(** The loop stops with [return false] at the first key that [in] does not
    find in the property map, and never throws. *)
Lemma unknown_property_loop_rejects typename_ properties ks :
  (exists k, In k ks /\ in_properties k properties = false) ->
  forall c, exists k,
    In k ks /\ in_properties k properties = false /\
    unknown_property_loop typename_ properties ks c
    = (Returned (Some false), c ++ [WarnUnknownProperty typename_ k]).
Proof.
  unfold unknown_property_loop.
  induction ks as [| k0 ks IH]; intros [k [Hin Hk]] c; [destruct Hin |].
  cbn [for_each].
  destruct (in_properties k0 properties) eqn:Hk0.
  - destruct Hin as [-> | Hin]; [congruence |].
    destruct (IH (ex_intro _ k (conj Hin Hk)) c) as [k1 [Hin1 [Hk1 Hloop]]].
    exists k1. split; [now right | split; [exact Hk1 |]].
    cbn [negb]. unfold bind at 1, ret at 1. exact Hloop.
  - exists k0. split; [now left | split; [exact Hk0 | reflexivity]].
Qed.

(** The part of the closed-shape rule the code keeps: an own key of the
    input that is neither declared nor a property name of
    [Object.prototype] makes the check return false. *)
Lemma object_rejects_unregistered_key typename_ properties own key c :
  In key (keys own) ->
  in_properties key properties = false ->
  result (Shapes.object_checkFn typename_ properties (VObject own)) c
  = Returned false.
Proof.
  intros Hin Hkey. unfold result, Shapes.object_checkFn.
  rewrite isObject_VObject. cbn [negb for_in_keys].
  destruct (@unknown_property_loop_rejects typename_ properties (keys own)
              (ex_intro _ key (conj Hin Hkey)) c) as [k [_ [_ Hloop]]].
  unfold unknown_property_loop in Hloop.
  unfold bind at 1. now rewrite Hloop.
Qed.

(** [object({a: string()})] rejects [{a: va, b: 1}] whatever [va] is. *)
Example closed_shape_example (va : value) (c : console) :
  result (check shape_a (VObject [("a", va); ("b", num 1)])) c
  = Returned false.
Proof. reflexivity. Qed.

(** C10.  An own key of the input that is not declared but is a property
    name of [Object.prototype] passes the closed-shape test, and no later
    step looks at it: the check runs as if the key were not there, whatever
    it holds.  So [object({a: string()})] returns true on
    [{a: "x", toString: 1}], and likewise for [constructor] and
    [hasOwnProperty]. *)
Theorem object_check_ignores_inherited_name
    (typename_ : string) (properties : ObjectProperties)
    (own1 own2 : list (string * value)) (key : string) (w : value)
    (Hproto : In key ObjectPrototype)
    (Hundeclared : ~ In key (keys properties)) :
  (forall c,
     Shapes.object_checkFn typename_ properties
       (VObject (own1 ++ (key, w) :: own2)) c
     = Shapes.object_checkFn typename_ properties
         (VObject (own1 ++ own2)) c) /\
  check shape_a (VObject [("a", VString "x"); ("toString", num 1)]) []
    = (Returned true, []) /\
  check shape_a (VObject [("a", VString "x"); ("constructor", VNull)]) []
    = (Returned true, []) /\
  check shape_a
    (VObject [("hasOwnProperty", VString "no"); ("a", VString "x")]) []
    = (Returned true, []).
Proof.
  split; [| repeat split].
  intro c. unfold Shapes.object_checkFn.
  rewrite !isObject_VObject. cbn [negb for_in_keys].
  apply bind_ext.
  - unfold keys. rewrite !map_app. cbn [map fst].
    apply for_each_skip. intro c0.
    unfold in_properties. apply mem_In in Hproto. rewrite Hproto.
    now rewrite orb_true_r.
  - intros [r |] c'; [reflexivity |].
    apply bind_ext; [| reflexivity].
    apply for_each_ext. intros [property shape] Hin c0.
    assert (Hne : property <> key).
    { intros ->. apply Hundeclared. unfold keys.
      now apply (in_map fst) in Hin. }
    cbn [get_property has_property].
    now rewrite (lookup_skip _ _ _ Hne), (mem_keys_skip _ _ _ Hne).
Qed.

(** C1.  [object({a: string()})] returns true on [{a: "x", toString: 1}],
    an input with a key that is not declared: the closed-shape test asks
    [inputProperty in properties], which also finds the property names of
    [Object.prototype]. *)
Theorem closed_shape_admits_inherited_name :
  mem "toString" (keys [("a", Shapes.string)]) = false /\
  wf_value (VObject [("a", VString "x"); ("toString", num 1)]) = true /\
  check shape_a (VObject [("a", VString "x"); ("toString", num 1)]) []
    = (Returned true, []).
Proof. repeat split. Qed.

(** ** Objects: declared properties *)

Lemma object_checkFn_unfold typename_ properties own :
  Shapes.object_checkFn typename_ properties (VObject own)
  = (unknown_ <- unknown_property_loop typename_ properties (keys own) ;;
     match unknown_ with
     | Some r => ret r
     | None =>
         declared <-
           for_each properties
             (declared_property_body typename_ (VObject own)) ;;
         match declared with
         | Some r => ret r
         | None => ret true
         end
     end).
Proof. reflexivity. Qed.

(** Both loops leave the check with [return false] only. *)
Lemma unknown_property_loop_Some typename_ properties ks c c' r :
  unknown_property_loop typename_ properties ks c = (Returned (Some r), c') ->
  r = false.
Proof.
  intro H. apply for_each_Some_inv in H.
  destruct H as [k [c1 [c2 [_ Hk]]]].
  destruct (negb (in_properties k properties)); [| discriminate Hk].
  cbv in Hk. congruence.
Qed.

Lemma declared_property_body_Some typename_ input entry c c' r :
  declared_property_body typename_ input entry c = (Returned (Some r), c') ->
  r = false.
Proof.
  destruct entry as [property shape]. unfold declared_property_body.
  destruct (negb (has_property input property) && negb (isOptional shape)).
  - cbv. congruence.
  - unfold bind at 1.
    destruct (checkFn shape (get_property input property) c)
      as [[[|] | e] c1]; cbn [negb]; try discriminate.
    unfold bind, ret.
    destruct (console_warn _ c1) as [[u | e] c2]; congruence.
Qed.

(** No built descriptor accepts a function. *)
Lemma Built_rejects_builtin shape :
  Built shape ->
  forall name c, exists c', checkFn shape (Builtin name) c = (Returned false, c').
Proof.
  induction 1 as [ | | | inner _ IH | inner _ IH | inner _ _
                 | properties shape _ Hobj | n properties shape _ Hobj ];
    intros name c.
  - now exists c.
  - now exists c.
  - now exists c.
  - apply IH.
  - apply IH.
  - eexists. reflexivity.
  - cbn in Hobj. injection Hobj as <-. eexists. reflexivity.
  - cbn in Hobj. injection Hobj as <-. eexists. reflexivity.
Qed.

Lemma BuiltProperties_In properties property shape :
  BuiltProperties properties -> In (property, shape) properties -> Built shape.
Proof.
  induction 1 as [| p s properties Hs _ IH]; intros Hin; [destruct Hin |].
  destruct Hin as [[= -> ->] | Hin]; [exact Hs | exact (IH Hin)].
Qed.

(** The iteration for a declared property that is not optional and not an
    own key of the input always leaves with [return false]: either the
    name is missing altogether, or it is found on [Object.prototype] and
    the function read from there fails the property's check. *)
Lemma declared_property_body_missing typename_ own property shape :
  Built shape ->
  mem property (keys own) = false ->
  isOptional shape = false ->
  forall c, exists c',
    declared_property_body typename_ (VObject own) (property, shape) c
    = (Returned (Some false), c').
Proof.
  intros HB Hown Hopt c. unfold declared_property_body.
  cbn [has_property get_property]. rewrite Hown, Hopt, (lookup_None _ _ Hown).
  cbn [orb negb andb].
  destruct (mem property ObjectPrototype); cbn [negb andb]; cbv iota.
  - destruct (Built_rejects_builtin HB property c) as [c' Hc'].
    unfold bind at 1. rewrite Hc'. cbn [negb]. eexists. reflexivity.
  - eexists. reflexivity.
Qed.

(** The part of the missing-property rule that holds on every input: when
    a declared property that is not optional is not an own key of the
    input, the check does not return true (it returns false, or a throw
    ends it). *)
Lemma object_missing_required_not_accepted
    typename_ properties own property shape c :
  BuiltProperties properties ->
  In (property, shape) properties ->
  mem property (keys own) = false ->
  isOptional shape = false ->
  result (Shapes.object_checkFn typename_ properties (VObject own)) c
  <> Returned true.
Proof.
  intros HB Hin Hown Hopt. unfold result. rewrite object_checkFn_unfold.
  unfold bind at 1.
  destruct (unknown_property_loop typename_ properties (keys own) c)
    as [[[r |] | e] c1] eqn:H1; cbn [fst]; try discriminate.
  - apply unknown_property_loop_Some in H1. subst r. discriminate.
  - unfold bind at 1.
    destruct (for_each properties _ c1) as [[[r |] | e] c2] eqn:H2;
      cbn [fst]; try discriminate.
    + apply for_each_Some_inv in H2.
      destruct H2 as [entry [d1 [d2 [_ Hb]]]].
      apply declared_property_body_Some in Hb. subst r. discriminate.
    + exfalso.
      destruct (for_each_None_inv _ _ _ H2 _ Hin) as [d1 [d2 Hb]].
      destruct (@declared_property_body_missing typename_ own property shape
                  (@BuiltProperties_In _ _ _ HB Hin) Hown Hopt d1) as [d3 Hb'].
      congruence.
Qed.

(** The examples of the optional-property law. *)
Example optional_property_examples (c : console) :
  result (check shape_a_optb (VObject [("a", VString "x")])) c
    = Returned true /\
  result (check shape_a_optb
            (VObject [("a", VString "x"); ("b", VString "y")])) c
    = Returned false.
Proof. split; reflexivity. Qed.

(** C2.  Two inputs on which the missing-property rule does not give the
    promised verdict.  On [{a: {toString: 1}}], [object({a: string(),
    b: number()})] lacks the required [b], yet the check does not return
    false: the iteration for [a] comes first and throws while it formats its
    diagnostic.  On [{}], [object({toString: optional(string())})] lacks
    only an optional property, yet the check returns false: the read of
    [toString] finds the function on [Object.prototype]. *)
Theorem missing_property_rule_failures :
  check shape_a_b (VObject [("a", VObject [("toString", num 1)])]) []
    = (Thrown (TypeError "Cannot convert object to primitive value"), []) /\
  check shape_opt_toString (VObject []) []
    = (Returned false,
       [WarnProperty "Object" "toString" (Builtin "toString")
          "string | undefined"]).
Proof. split; reflexivity. Qed.

(** ** Errors *)

(** [object] throws exactly when it is given a name and no property map;
    the other builders are total functions. *)
Lemma object_throws_iff nameOrProps maybeProperties :
  (exists e, Shapes.object nameOrProps maybeProperties = Thrown e) <->
  (exists name, nameOrProps = inl name) /\ maybeProperties = None.
Proof.
  destruct nameOrProps as [name | properties];
    destruct maybeProperties as [properties' |]; cbn; split.
  - intros [e H]. discriminate H.
  - intros [_ H]. discriminate H.
  - intros _. split; [now exists name | reflexivity].
  - intros _. eexists. reflexivity.
  - intros [e H]. discriminate H.
  - intros [[name H] _]. discriminate H.
  - intros [e H]. discriminate H.
  - intros [[name H] _]. discriminate H.
Qed.

Lemma printable_stringifies :
  forall v, printable v = true -> stringifies_value v = true.
Proof.
  intros [| | b | f | s | elems | own]; cbn [printable]; try reflexivity.
  - intro H. apply andb_true_iff in H. now destruct H.
  - intro H. apply andb_true_iff in H. destruct H as [H _].
    unfold stringifies_value. cbn [ToString_error].
    destruct (mem "toString" (keys own)); [discriminate H | reflexivity].
Qed.

Lemma printable_unknown_stringifies x :
  printable_unknown x = true -> stringifies x = true.
Proof.
  destruct x as [v | n]; [apply printable_stringifies | reflexivity].
Qed.

Lemma printable_get_property own property :
  printable (VObject own) = true ->
  printable_unknown (get_property (VObject own) property) = true.
Proof.
  cbn [printable get_property]. intro H.
  apply andb_true_iff in H. destruct H as [_ H].
  induction own as [| [k w] own IH]; cbn [lookup].
  - destruct (mem property ObjectPrototype); reflexivity.
  - apply andb_true_iff in H. destruct H as [Hw Hown].
    destruct (String.eqb property k); [exact Hw | exact (IH Hown)].
Qed.

Lemma holes_error_None xs :
  forallb stringifies xs = true -> holes_error xs = None.
Proof.
  induction xs as [| x xs IH]; [reflexivity |].
  cbn [forallb holes_error]. unfold stringifies at 1.
  destruct (hole_error x); [discriminate | exact IH].
Qed.

Lemma console_warn_returns d c :
  forallb stringifies (holes d) = true ->
  console_warn d c = (Returned tt, c ++ [d]).
Proof.
  intro H. unfold console_warn. now rewrite (holes_error_None _ H).
Qed.

Lemma for_each_returns {K R} (ks : list K) (body : K -> M (option R)) :
  (forall k, In k ks -> forall c, exists r c', body k c = (Returned r, c')) ->
  forall c, exists r c', for_each ks body c = (Returned r, c').
Proof.
  induction ks as [| k ks IH]; intros Hbody c.
  - now exists None, c.
  - cbn [for_each]. unfold bind at 1.
    destruct (Hbody k (or_introl eq_refl) c) as [r [c1 ->]].
    destruct r as [b |].
    + now exists (Some b), c1.
    + apply IH. intros k' Hk'. apply Hbody. now right.
Qed.

Lemma every_returns (elems : list value) (callback : unknown -> M bool) :
  (forall e, In e elems ->
     forall c, exists b c', callback (Data e) c = (Returned b, c')) ->
  forall c, exists b c', every elems callback c = (Returned b, c').
Proof.
  induction elems as [| e elems IH]; intros Hcb c.
  - now exists true, c.
  - cbn [every]. unfold bind at 1.
    destruct (Hcb e (or_introl eq_refl) c) as [b [c1 ->]].
    destruct b.
    + apply IH. intros e' He'. apply Hcb. now right.
    + now exists false, c1.
Qed.

Lemma object_checkFn_returns typename_ properties :
  Forall (fun kv => returns_on_printable (snd kv)) properties ->
  forall x, printable_unknown x = true ->
  forall c, exists b c',
    Shapes.object_checkFn typename_ properties x c = (Returned b, c').
Proof.
  intros Hprops x Hx c.
  destruct (isObject x) eqn:Hobj.
  - apply isObject_inv in Hobj. destruct Hobj as [own ->].
    rewrite object_checkFn_unfold. unfold bind at 1.
    destruct (@for_each_returns _ bool (keys own)
                (fun inputProperty =>
                   if negb (in_properties inputProperty properties) then
                     console_warn
                       (WarnUnknownProperty typename_ inputProperty) ;;;
                     ret (Some false)
                   else ret None)) with (c := c) as [r [c1 H1]].
    { intros k _ c0. destruct (negb (in_properties k properties));
        eexists; eexists; reflexivity. }
    unfold unknown_property_loop. rewrite H1.
    destruct r as [b |]; [now exists b, c1 |].
    unfold bind at 1.
    destruct (@for_each_returns _ bool properties
                (declared_property_body typename_ (VObject own)))
      with (c := c1) as [r [c2 H2]].
    { intros [property shape] Hin c0. unfold declared_property_body.
      destruct (negb (has_property (VObject own) property)
                && negb (isOptional shape));
        [eexists; eexists; reflexivity |].
      rewrite Forall_forall in Hprops. specialize (Hprops _ Hin).
      cbn [snd] in Hprops.
      pose proof (printable_get_property own property Hx) as Hfield.
      destruct (Hprops _ Hfield c0) as [b [c0' Hb]].
      unfold bind at 1. rewrite Hb. destruct b; cbn [negb].
      - eexists; eexists; reflexivity.
      - unfold bind at 1. rewrite console_warn_returns.
        + eexists; eexists; reflexivity.
        + cbn [holes forallb].
          now rewrite (printable_unknown_stringifies _ Hfield). }
    rewrite H2. destruct r as [b |]; eexists; eexists; reflexivity.
  - unfold Shapes.object_checkFn. rewrite Hobj. cbn [negb].
    eexists; eexists; reflexivity.
Qed.

(** The part of totality that holds: on an input every part of which
    converts to a string, the check of a built descriptor returns a
    boolean. *)
Lemma Built_check_returns shape :
  Built shape -> returns_on_printable shape.
Proof.
  intro HB.
  induction HB using Built_mut with
    (P0 := fun properties =>
       Forall (fun kv => returns_on_printable (snd kv)) properties);
    try (intros x Hx c).
  - eexists; eexists; reflexivity.
  - eexists; eexists; reflexivity.
  - eexists; eexists; reflexivity.
  - cbn [checkFn Shapes.optional].
    destruct (isUndefined x); [eexists; eexists; reflexivity | now apply IHHB].
  - cbn [checkFn Shapes.nullable].
    destruct (isNull x); [eexists; eexists; reflexivity | now apply IHHB].
  - cbn [checkFn Shapes.array].
    destruct (isArray x) eqn:Harr; cbn [negb];
      [| eexists; eexists; reflexivity].
    destruct x as [[| | b | f | s | elems | o] | n]; try discriminate Harr.
    cbn [elements]. apply every_returns. intros e He c0.
    assert (Hpe : printable_unknown (Data e) = true).
    { cbn [printable_unknown printable] in Hx.
      apply andb_true_iff in Hx. destruct Hx as [_ Hx].
      rewrite forallb_forall in Hx. now apply Hx. }
    destruct (IHHB _ Hpe c0) as [b [c0' Hb]].
    unfold bind at 1. rewrite Hb. destruct b; cbn [negb].
    + eexists; eexists; reflexivity.
    + unfold bind at 1. rewrite console_warn_returns.
      * eexists; eexists; reflexivity.
      * cbn [holes forallb].
        now rewrite (printable_unknown_stringifies _ Hpe).
  - match goal with H : Shapes.object _ _ = _ |- _ =>
      cbn in H; injection H as <- end.
    now apply object_checkFn_returns.
  - match goal with H : Shapes.object _ _ = _ |- _ =>
      cbn in H; injection H as <- end.
    now apply object_checkFn_returns.
  - constructor.
  - constructor; assumption.
Qed.

(** On such an input the missing-property rule gives its verdict. *)
Corollary object_missing_required_rejected
    typename_ properties own property shape c :
  BuiltProperties properties ->
  In (property, shape) properties ->
  mem property (keys own) = false ->
  isOptional shape = false ->
  printable (VObject own) = true ->
  result (Shapes.object_checkFn typename_ properties (VObject own)) c
  = Returned false.
Proof.
  intros HB Hin Hown Hopt Hpr.
  pose proof (@object_missing_required_not_accepted
                typename_ properties own property shape c HB Hin Hown Hopt)
    as Hnot.
  assert (HBo : Built (mkShape typename_
                         (Shapes.object_checkFn typename_ properties) None)).
  { apply (@Built_named_object typename_ properties); [exact HB | reflexivity]. }
  destruct (Built_check_returns HBo (Data (VObject own)) Hpr c) as [b [c' Hb]].
  cbn [checkFn] in Hb. unfold result in *. rewrite Hb in *.
  destruct b; [now destruct Hnot | reflexivity].
Qed.

(** C7.  The check of [array(string())] on [[{toString: 1}]], a value
    [JSON.parse] produces, does not return false: the element fails the
    member check, and formatting the diagnostic for it throws a
    [TypeError].  The same happens for a property value in an object
    check. *)
Theorem check_throws_on_unprintable_value :
  wf_value (VArray [VObject [("toString", num 1)]]) = true /\
  checkFn (Shapes.array Shapes.string)
          (VArray [VObject [("toString", num 1)]]) []
    = (Thrown (TypeError "Cannot convert object to primitive value"), []) /\
  check shape_a (VObject [("a", VObject [("toString", num 1)])]) []
    = (Thrown (TypeError "Cannot convert object to primitive value"), []).
Proof. repeat split. Qed.

(** * Further properties of the checks *)

(** ** A check that succeeds writes nothing *)

Lemma quiet_on_for_each_None {K R} (ks : list K) (body : K -> M (option R)) :
  (forall k, In k ks -> quiet_on None (body k)) ->
  quiet_on None (for_each ks body).
Proof.
  induction ks as [| k ks IH]; intros Hbody c c' H.
  - now injection H.
  - cbn [for_each] in H. unfold bind at 1 in H.
    destruct (body k c) as [[[r |] | e] c1] eqn:Hk; try discriminate H.
    apply (Hbody k (or_introl eq_refl)) in Hk. subst c1.
    apply (IH (fun k' Hk' => Hbody k' (or_intror Hk'))) in H. exact H.
Qed.

Lemma quiet_on_every_true (elems : list value) (callback : unknown -> M bool) :
  (forall e, In e elems -> quiet_on true (callback (Data e))) ->
  quiet_on true (every elems callback).
Proof.
  induction elems as [| e elems IH]; intros Hcb c c' H.
  - now injection H.
  - cbn [every] in H. unfold bind at 1 in H.
    destruct (callback (Data e) c) as [[[|] | err] c1] eqn:He;
      try discriminate H.
    apply (Hcb e (or_introl eq_refl)) in He. subst c1.
    apply (IH (fun e' He' => Hcb e' (or_intror He'))) in H. exact H.
Qed.

Lemma quiet_on_object_checkFn typename_ properties x :
  Forall (fun kv => forall y, quiet_on true (checkFn (snd kv) y)) properties ->
  quiet_on true (Shapes.object_checkFn typename_ properties x).
Proof.
  intros Hprops c c' H.
  destruct (isObject x) eqn:Hobj.
  - apply isObject_inv in Hobj. destruct Hobj as [own ->].
    rewrite object_checkFn_unfold in H. unfold bind at 1 in H.
    destruct (unknown_property_loop typename_ properties (keys own) c)
      as [[[r |] | e] c1] eqn:H1; try discriminate H.
    + pose proof (unknown_property_loop_Some _ _ _ _ H1). subst r.
      discriminate H.
    + assert (c1 = c).
      { revert H1. apply quiet_on_for_each_None. intros k _ d d'.
        destruct (negb (in_properties k properties)).
        - cbv. discriminate.
        - now intros [= ->]. }
      subst c1. unfold bind at 1 in H.
      destruct (for_each properties _ c) as [[[r |] | e] c2] eqn:H2;
        try discriminate H.
      * apply for_each_Some_inv in H2.
        destruct H2 as [entry [d1 [d2 [_ Hb]]]].
        apply declared_property_body_Some in Hb. subst r. discriminate H.
      * injection H as <-. revert H2. apply quiet_on_for_each_None.
        intros [property shape] Hin d d'. unfold declared_property_body.
        destruct (negb (has_property (VObject own) property)
                  && negb (isOptional shape)).
        -- cbv. discriminate.
        -- unfold bind at 1.
           destruct (checkFn shape (get_property (VObject own) property) d)
             as [[[|] | e] d1] eqn:Hc; cbn [negb].
           ++ intros [= <-]. rewrite Forall_forall in Hprops.
              exact (Hprops _ Hin _ _ _ Hc).
           ++ unfold bind, ret.
              destruct (console_warn _ d1) as [[u | e] d2]; discriminate.
           ++ discriminate.
  - unfold Shapes.object_checkFn in H. rewrite Hobj in H. cbv in H.
    discriminate H.
Qed.

Lemma Built_quiet_on_true shape :
  Built shape -> forall x, quiet_on true (checkFn shape x).
Proof.
  intro HB.
  induction HB using Built_mut with
    (P0 := fun properties =>
       Forall (fun kv => forall y, quiet_on true (checkFn (snd kv) y))
              properties);
    try (intros x c c' Hrun).
  - now injection Hrun.
  - now injection Hrun.
  - now injection Hrun.
  - cbn [checkFn Shapes.optional] in Hrun. destruct (isUndefined x).
    + now injection Hrun.
    + exact (IHHB _ _ _ Hrun).
  - cbn [checkFn Shapes.nullable] in Hrun. destruct (isNull x).
    + now injection Hrun.
    + exact (IHHB _ _ _ Hrun).
  - cbn [checkFn Shapes.array] in Hrun.
    destruct (isArray x); cbn [negb] in Hrun; [| cbv in Hrun; discriminate Hrun].
    revert Hrun. apply quiet_on_every_true. intros e _ d d'.
    unfold bind at 1.
    destruct (checkFn shape (Data e) d) as [[[|] | err] d1] eqn:Hc;
      cbn [negb].
    + intros [= <-]. exact (IHHB _ _ _ Hc).
    + unfold bind, ret.
      destruct (console_warn _ d1) as [[u | err] d2]; discriminate.
    + discriminate.
  - match goal with H0 : Shapes.object _ _ = _ |- _ =>
      cbn in H0; injection H0 as <- end.
    exact (@quiet_on_object_checkFn _ _ x IHHB _ _ Hrun).
  - match goal with H0 : Shapes.object _ _ = _ |- _ =>
      cbn in H0; injection H0 as <- end.
    exact (@quiet_on_object_checkFn _ _ x IHHB _ _ Hrun).
  - constructor.
  - constructor; assumption.
Qed.

(** X1.  When the check of a built descriptor returns true it has written
    no diagnostic: the console is as it was. *)
Theorem accepted_input_writes_nothing (D : TypeShape) (HD : Built D)
    (v : unknown) (c c' : console)
    (Hok : checkFn D v c = (Returned true, c')) :
  c' = c.
Proof. exact (Built_quiet_on_true HD v c Hok). Qed.

(** ** Inputs on which a check does not throw *)


(** ** When an object check accepts *)

Lemma for_each_None_iff {K R} (ks : list K) (body : K -> M (option R)) :
  (forall k, In k ks -> writes_only (body k)) ->
  forall c,
    result (for_each ks body) c = Returned None <->
    Forall (fun k => result (body k) [] = Returned None) ks.
Proof.
  induction ks as [| k ks IH]; intros Hbody c.
  - cbn. split; [constructor | reflexivity].
  - destruct (Hbody k (or_introl eq_refl)) as [r [out Hr]].
    assert (Hhead : fst (body k []) = r) by now rewrite Hr.
    assert (IH' := IH (fun k' Hk' => Hbody k' (or_intror Hk')) (c ++ out)).
    unfold result in *. cbn [for_each]. unfold bind at 1. rewrite Hr.
    destruct r as [[b |] | e].
    + cbn. split; [discriminate |].
      intro H. inversion H; subst. congruence.
    + rewrite IH'.
      split; [intro H; now constructor | intro H; now inversion H].
    + cbn. split; [discriminate |].
      intro H. inversion H; subst. congruence.
Qed.

(** The closed-shape loop either finds every key and writes nothing, or
    leaves with [return false]; it never throws. *)
Lemma unknown_property_loop_cases typename_ properties ks c :
  (Forall (fun k => in_properties k properties = true) ks /\
   unknown_property_loop typename_ properties ks c = (Returned None, c)) \/
  (~ Forall (fun k => in_properties k properties = true) ks /\
   exists c',
     unknown_property_loop typename_ properties ks c
     = (Returned (Some false), c')).
Proof.
  unfold unknown_property_loop.
  induction ks as [| k ks IH].
  - left. split; [constructor | reflexivity].
  - cbn [for_each]. destruct (in_properties k properties) eqn:Hk; cbn [negb].
    + destruct IH as [[Hall Hrun] | [Hnot [c' Hrun]]].
      * left. split; [now constructor |].
        unfold bind at 1, ret at 1. exact Hrun.
      * right. split; [intro H; inversion H; contradiction |].
        exists c'. unfold bind at 1, ret at 1. exact Hrun.
    + right. split; [intro H; inversion H; congruence |].
      eexists. reflexivity.
Qed.

Lemma declared_property_body_None_iff typename_ input property shape :
  result (declared_property_body typename_ input (property, shape)) []
  = Returned None <->
  (has_property input property || isOptional shape) = true /\
  result (checkFn shape (get_property input property)) [] = Returned true.
Proof.
  unfold result, declared_property_body.
  destruct (has_property input property); destruct (isOptional shape);
    cbn [negb andb orb].
  4: { cbv. split; [discriminate | intros [H _]; discriminate H]. }
  all: unfold bind at 1;
    destruct (checkFn shape (get_property input property) [])
      as [[[|] | e] c1]; cbn [negb fst];
    [ split; [intros _; split; reflexivity | reflexivity]
    | unfold bind, ret; destruct (console_warn _ c1) as [[u | e] c2]; cbn;
      (split; [discriminate | intros [_ H]; discriminate H])
    | split; [discriminate | intros [_ H]; discriminate H] ].
Qed.

Lemma writes_only_declared_property_body typename_ input properties entry :
  BuiltProperties properties -> In entry properties ->
  writes_only (declared_property_body typename_ input entry).
Proof.
  intros HB Hin. destruct entry as [property shape].
  pose proof (@BuiltProperties_In _ _ _ HB Hin) as Hs.
  unfold declared_property_body.
  destruct (negb (has_property input property) && negb (isOptional shape));
    [auto with shapes |].
  apply writes_only_bind; [now apply Built_writes_only |].
  intros [|]; cbn [negb]; auto with shapes.
Qed.

Lemma object_accepts_iff typename_ properties own c :
  BuiltProperties properties ->
  result (Shapes.object_checkFn typename_ properties (VObject own)) c
  = Returned true <->
  Forall (fun k => in_properties k properties = true) (keys own) /\
  Forall (fun kv =>
            (has_property (VObject own) (fst kv) || isOptional (snd kv)) = true
            /\ result (checkFn (snd kv) (get_property (VObject own) (fst kv))) []
               = Returned true) properties.
Proof.
  intro HB. unfold result at 1. rewrite object_checkFn_unfold.
  unfold bind at 1.
  destruct (unknown_property_loop_cases typename_ properties (keys own) c)
    as [[Hall ->] | [Hnot [c' ->]]].
  - pose proof (@for_each_None_iff _ bool properties
                  (declared_property_body typename_ (VObject own))
                  (fun e He => @writes_only_declared_property_body
                                 typename_ (VObject own) properties e HB He)
                  c) as Hloop.
    unfold result in Hloop at 1. unfold bind at 1.
    destruct (for_each properties _ c) as [[[r |] | e] c2] eqn:H2;
      cbn [fst] in *.
    + apply for_each_Some_inv in H2.
      destruct H2 as [entry [d1 [d2 [_ Hb]]]].
      apply declared_property_body_Some in Hb. subst r.
      split; [discriminate |]. intros [_ Hdecl].
      assert (Hn : Returned (A := option bool) (Some false) = Returned None).
      { apply Hloop. eapply Forall_impl; [| exact Hdecl].
        intros [p sh] Hp. now apply declared_property_body_None_iff. }
      discriminate Hn.
    + split; [| reflexivity]. intros _. split; [exact Hall |].
      assert (Hd := proj1 Hloop eq_refl).
      eapply Forall_impl; [| exact Hd].
      intros [p sh] Hp. now apply declared_property_body_None_iff in Hp.
    + split; [discriminate |]. intros [_ Hdecl].
      assert (Hn : Thrown (A := option bool) e = Returned None).
      { apply Hloop. eapply Forall_impl; [| exact Hdecl].
        intros [p sh] Hp. now apply declared_property_body_None_iff. }
      discriminate Hn.
  - cbn. split; [discriminate | intros [Hall _]; contradiction].
Qed.

(** X4.  The check of an object descriptor over built properties returns
    true on a plain object exactly when [in] finds each of its own keys in
    the property map, and each declared property is found by [in] on the
    input or is optional, and its check returns true on what reading it
    from the input gives. *)
Theorem object_check_accepts_iff
    (typename_ : string) (properties : ObjectProperties)
    (HB : BuiltProperties properties)
    (own : list (string * value)) (c : console) :
  result (Shapes.object_checkFn typename_ properties (VObject own)) c
  = Returned true <->
  Forall (fun k => in_properties k properties = true) (keys own) /\
  Forall (fun kv =>
            (has_property (VObject own) (fst kv) || isOptional (snd kv)) = true
            /\ result (checkFn (snd kv) (get_property (VObject own) (fst kv))) []
               = Returned true) properties.
Proof. now apply object_accepts_iff. Qed.

(** ** What an object check does first *)

(** X5.  Unknown keys are looked for before any declared property is
    examined and in the enumeration order of the input: at the first own
    key that [in] does not find in the property map the check returns false,
    having written the one line that names this key, whatever the remaining
    keys, the property values and the property descriptors are. *)
Theorem object_check_reports_first_unknown_key
    (typename_ : string) (properties : ObjectProperties)
    (own1 own2 : list (string * value)) (key : string) (w : value)
    (Hbefore : Forall (fun k => in_properties k properties = true) (keys own1))
    (Hkey : in_properties key properties = false) (c : console) :
  Shapes.object_checkFn typename_ properties
    (VObject (own1 ++ (key, w) :: own2)) c
  = (Returned false, c ++ [WarnUnknownProperty typename_ key]).
Proof.
  rewrite object_checkFn_unfold. unfold bind at 1.
  assert (Hloop :
    unknown_property_loop typename_ properties
      (keys (own1 ++ (key, w) :: own2)) c
    = (Returned (Some false), c ++ [WarnUnknownProperty typename_ key])).
  { unfold unknown_property_loop, keys. rewrite map_app. cbn [map fst].
    fold (keys own1) (keys own2).
    induction (keys own1) as [| k ks IH].
    - cbn [app for_each]. now rewrite Hkey.
    - inversion Hbefore as [| k' ks' Hk Hks]; subst.
      cbn [app for_each]. rewrite Hk. cbn [negb].
      unfold bind at 1, ret at 1. exact (IH Hks). }
  now rewrite Hloop.
Qed.

(** X6.  Anything that is not a plain object ([undefined], [null], a
    boolean, a number, a string, an array, a function) is rejected by an
    object check with the one line that says so, without a look at the
    property map. *)
Theorem object_check_rejects_non_object
    (typename_ : string) (properties : ObjectProperties) (x : unknown)
    (Hx : forall own, x <> Data (VObject own)) (c : console) :
  Shapes.object_checkFn typename_ properties x c
  = (Returned false, c ++ [WarnNotAnObject typename_]).
Proof.
  unfold Shapes.object_checkFn.
  destruct (isObject x) eqn:Hobj.
  - apply isObject_inv in Hobj. destruct Hobj as [own ->].
    now destruct (Hx own).
  - reflexivity.
Qed.

(** X7.  When a declared property that is not optional is not an own key
    of the input, the check never returns true. *)
Theorem missing_required_property_is_not_accepted
    (typename_ : string) (properties : ObjectProperties)
    (HB : BuiltProperties properties)
    (own : list (string * value)) (property : string) (shape : TypeShape)
    (Hdecl : In (property, shape) properties)
    (Hmissing : mem property (keys own) = false)
    (Hrequired : isOptional shape = false) (c : console) :
  result (Shapes.object_checkFn typename_ properties (VObject own)) c
  <> Returned true.
Proof.
  now apply object_missing_required_not_accepted with property shape.
Qed.

(** ** The two modifiers together *)

(** X8.  [optional] and [nullable] commute and are idempotent as far as the
    check goes: on every input, in either order the check is the same
    computation, and applying a modifier twice changes nothing.  The flag
    is what tells the two orders apart. *)
Theorem modifiers_commute_and_are_idempotent (S : TypeShape) (x : unknown) :
  checkFn (Shapes.optional (Shapes.nullable S)) x
  = checkFn (Shapes.nullable (Shapes.optional S)) x /\
  checkFn (Shapes.optional (Shapes.optional S)) x
  = checkFn (Shapes.optional S) x /\
  checkFn (Shapes.nullable (Shapes.nullable S)) x
  = checkFn (Shapes.nullable S) x /\
  isOptional (Shapes.optional (Shapes.nullable S)) = true /\
  isOptional (Shapes.nullable (Shapes.optional S)) = false.
Proof.
  repeat split; destruct x as [[| | b | f | s | l | o] | n]; reflexivity.
Qed.

(** X9.  So the order of the modifiers decides what an object check does
    with an absent key: with [optional] outermost the property may be
    missing, with [nullable] outermost it may not, although the two
    property checks accept the same values. *)
Theorem modifier_order_decides_absence
    (typename_ : string) (S : TypeShape) (property : string)
    (Hname : mem property ObjectPrototype = false) (c : console) :
  Shapes.object_checkFn typename_
    [(property, Shapes.optional (Shapes.nullable S))] (VObject []) c
  = (Returned true, c) /\
  Shapes.object_checkFn typename_
    [(property, Shapes.nullable (Shapes.optional S))] (VObject []) c
  = (Returned false,
     c ++ [WarnMissingProperty typename_ property
             (typename (Shapes.nullable (Shapes.optional S)))]).
Proof.
  split; unfold Shapes.object_checkFn;
    cbn [isObject isNull typeof Array_isArray for_in_keys keys map for_each
         has_property get_property lookup mem existsb orb];
    fold (mem property ObjectPrototype); rewrite Hname; reflexivity.
Qed.

(** ** Arrays: the first rejected element *)

Lemma every_stops (callback : unknown -> M bool) (l1 l2 : list value)
    (e : value) :
  (forall c, result (callback (Data e)) c <> Returned true) ->
  forall c,
    every (l1 ++ e :: l2) callback c = every (l1 ++ [e]) callback c.
Proof.
  intro Hrej. induction l1 as [| a l1 IH]; intro c.
  - cbn [app every]. unfold bind.
    specialize (Hrej c). unfold result in Hrej.
    destruct (callback (Data e) c) as [[[|] | err] c1]; cbn [fst] in Hrej;
      [now destruct Hrej | reflexivity | reflexivity].
  - cbn [app every]. apply bind_ext; [reflexivity |].
    intros [|] c1; [apply IH | reflexivity].
Qed.

(** X10.  An array check stops at the first element the member check does
    not return true on: the elements after it are not examined, so they
    change neither the outcome nor what is written. *)
Theorem array_check_stops_at_first_rejected
    (S : TypeShape) (l1 l2 : list value) (e : value)
    (Hrej : forall c, result (checkFn S (Data e)) c <> Returned true)
    (c : console) :
  checkFn (Shapes.array S) (VArray (l1 ++ e :: l2)) c
  = checkFn (Shapes.array S) (VArray (l1 ++ [e])) c.
Proof.
  cbn [checkFn Shapes.array isArray Array_isArray negb elements].
  apply every_stops. intros c0 H.
  apply element_callback_true in H. exact (Hrej c0 H).
Qed.

(** X11.  An array check accepts a concatenation exactly when it accepts
    both parts. *)
Theorem array_check_app (S : TypeShape) (HS : Built S)
    (l1 l2 : list value) (c : console) :
  result (checkFn (Shapes.array S) (VArray (l1 ++ l2))) c = Returned true <->
  result (checkFn (Shapes.array S) (VArray l1)) c = Returned true /\
  result (checkFn (Shapes.array S) (VArray l2)) c = Returned true.
Proof.
  cbn [checkFn Shapes.array isArray Array_isArray negb elements].
  assert (Hcb : forall x,
    writes_only (ok <- checkFn S x ;;
                 if negb ok then
                   console_warn
                     (WarnElement ("Array<" ++ typename S ++ ">")%string x
                        (typename S)) ;;;
                   ret false
                 else ret true)).
  { intro x. apply writes_only_bind; [now apply Built_writes_only |].
    intros [|]; cbn [negb]; auto with shapes. }
  rewrite !(@every_true_iff _ Hcb). apply Forall_app.
Qed.

(** ** The kinds of value *)

(** X12.  The seven primitive checkers are mutually exclusive, and exactly
    one holds of every value except NaN, the two infinities and functions,
    of which none holds. *)
Theorem primitive_checkers_partition (x : unknown) :
  List.length (filter (fun checker => checker x)
            [isString; isNumber; isObject; isArray; isNull; isBoolean;
             isUndefined])
  = match x with
    | Builtin _ => 0
    | Data (VNumber S754_nan) | Data (VNumber (S754_infinity _)) => 0
    | Data _ => 1
    end.
Proof.
  destruct x as [[| | b | f | s | l | o] | n]; try reflexivity.
  destruct f; reflexivity.
Qed.

Lemma Built_rejects_builtin_result shape :
  Built shape -> forall name c, result (checkFn shape (Builtin name)) c
                                = Returned false.
Proof.
  intros HB name c. destruct (Built_rejects_builtin HB name c) as [c' H].
  unfold result. now rewrite H.
Qed.

(** X13.  No built descriptor accepts a function: its check returns false
    on it, without throwing. *)
Theorem built_descriptor_rejects_function (D : TypeShape) (HD : Built D)
    (name : string) (c : console) :
  result (checkFn D (Builtin name)) c = Returned false.
Proof. now apply Built_rejects_builtin_result. Qed.

Lemma accepts_array_isArray S x c :
  accepts (Shapes.array S) x c = true -> isArray x = true.
Proof.
  unfold accepts, result. cbn [checkFn Shapes.array].
  destruct (isArray x); [reflexivity | cbv; discriminate].
Qed.

Lemma accepts_object_isObject typename_ properties x c :
  accepts (mkShape typename_ (Shapes.object_checkFn typename_ properties) None)
          x c = true ->
  isObject x = true.
Proof.
  unfold accepts, result. cbn [checkFn]. unfold Shapes.object_checkFn.
  destruct (isObject x); [reflexivity | cbv; discriminate].
Qed.

(** X14.  Of the descriptors [string()], [number()], [boolean()], an array
    descriptor and an object descriptor, at most one accepts a given
    value, whatever the member descriptor and the property map are. *)
Theorem descriptor_kinds_are_exclusive
    (S : TypeShape) (typename_ : string) (properties : ObjectProperties)
    (x : unknown) (c : console) :
  List.length
    (filter (fun D => accepts D x c)
       [ Shapes.string; Shapes.number; Shapes.boolean; Shapes.array S;
         mkShape typename_ (Shapes.object_checkFn typename_ properties) None ])
  <= 1.
Proof.
  pose proof (@accepts_array_isArray S x c) as Harr.
  pose proof (@accepts_object_isObject typename_ properties x c) as Hobj.
  assert (Hs : accepts Shapes.string x c = isString x).
  { unfold accepts. cbn. now destruct (isString x). }
  assert (Hn : accepts Shapes.number x c = isNumber x).
  { unfold accepts. cbn. now destruct (isNumber x). }
  assert (Hb : accepts Shapes.boolean x c = isBoolean x).
  { unfold accepts. cbn. now destruct (isBoolean x). }
  cbn [filter]. rewrite Hs, Hn, Hb.
  destruct (accepts (Shapes.array S) x c);
    destruct (accepts _ x c);
    try specialize (Harr eq_refl); try specialize (Hobj eq_refl);
    destruct x as [[| | b | f | s | l | o] | n];
    try discriminate; cbn; try lia;
    destruct f; cbn; lia.
Qed.

(** ** The name of an object descriptor *)

Lemma same_outcome_bind {A B} (m1 m2 : M A) (k1 k2 : A -> M B) :
  same_outcome m1 m2 ->
  (forall a, same_outcome (k1 a) (k2 a)) ->
  same_outcome (bind m1 k1) (bind m2 k2).
Proof.
  intros Hm Hk c1 c2. specialize (Hm c1 c2).
  unfold result, bind in *.
  destruct (m1 c1) as [[a1 | e1] d1]; destruct (m2 c2) as [[a2 | e2] d2];
    cbn [fst] in Hm; try discriminate Hm.
  - injection Hm as <-. apply Hk.
  - injection Hm as <-. reflexivity.
Qed.

Lemma same_outcome_ret {A} (a : A) : same_outcome (ret a) (ret a).
Proof. intros c1 c2. reflexivity. Qed.

Lemma same_outcome_console_warn d1 d2 :
  holes d1 = holes d2 -> same_outcome (console_warn d1) (console_warn d2).
Proof.
  intros H c1 c2. unfold result, console_warn. rewrite H.
  now destruct (holes_error (holes d2)).
Qed.

Lemma same_outcome_for_each {K R} (ks : list K)
    (body1 body2 : K -> M (option R)) :
  (forall k, In k ks -> same_outcome (body1 k) (body2 k)) ->
  same_outcome (for_each ks body1) (for_each ks body2).
Proof.
  induction ks as [| k ks IH]; intro Hbody; cbn [for_each].
  - apply same_outcome_ret.
  - apply same_outcome_bind; [apply Hbody; now left |].
    intros [r |]; [apply same_outcome_ret |].
    apply IH. intros k' Hk'. apply Hbody. now right.
Qed.

Lemma same_outcome_writes_only {A} (m : M A) :
  writes_only m -> same_outcome m m.
Proof. intros H c1 c2. now apply writes_only_result. Qed.

(** X15.  The name given to [object] shows in the diagnostics only: over
    the same built property map, the named and the anonymous descriptor,
    and two descriptors with different names, end every check the same way
    (the same boolean, or a throw), from whatever console each starts. *)
Theorem object_name_only_in_diagnostics
    (properties : ObjectProperties) (HB : BuiltProperties properties)
    (name1 name2 : string) (x : unknown) (c1 c2 : console) :
  result (check (Shapes.object (inl name1) (Some properties)) x) c1
  = result (check (Shapes.object (inl name2) (Some properties)) x) c2 /\
  result (check (Shapes.object (inl name1) (Some properties)) x) c1
  = result (check (Shapes.object (inr properties) None) x) c2.
Proof.
  assert (H : forall n1 n2,
    same_outcome (Shapes.object_checkFn n1 properties x)
                 (Shapes.object_checkFn n2 properties x)).
  { intros n1 n2. unfold Shapes.object_checkFn.
    destruct (negb (isObject x)).
    - apply same_outcome_bind;
        [now apply same_outcome_console_warn | intro; apply same_outcome_ret].
    - apply same_outcome_bind.
      + apply same_outcome_for_each. intros k _.
        destruct (negb (in_properties k properties));
          [| apply same_outcome_ret].
        apply same_outcome_bind;
          [now apply same_outcome_console_warn | intro; apply same_outcome_ret].
      + intros [r |]; [apply same_outcome_ret |].
        apply same_outcome_bind.
        * apply same_outcome_for_each. intros [property shape] Hin.
          destruct (negb (has_property x property) && negb (isOptional shape)).
          -- apply same_outcome_bind;
               [now apply same_outcome_console_warn
               | intro; apply same_outcome_ret].
          -- apply same_outcome_bind.
             ++ apply same_outcome_writes_only, Built_writes_only.
                exact (@BuiltProperties_In _ _ _ HB Hin).
             ++ intros [|]; cbn [negb]; [apply same_outcome_ret |].
                apply same_outcome_bind;
                  [now apply same_outcome_console_warn
                  | intro; apply same_outcome_ret].
        * intros [r |]; apply same_outcome_ret. }
  split; apply H.
Qed.

(** ** A rejection by a container says why *)

Lemma every_false_last (elems : list value) (callback : unknown -> M bool) :
  forall c c',
    every elems callback c = (Returned false, c') ->
    exists e c1, In e elems /\ callback (Data e) c1 = (Returned false, c').
Proof.
  induction elems as [| e elems IH]; intros c c' H.
  - discriminate H.
  - cbn [every] in H. unfold bind at 1 in H.
    destruct (callback (Data e) c) as [[[|] | err] c1] eqn:He.
    + destruct (IH _ _ H) as [e' [d1 [Hin Hb]]].
      exists e', d1. split; [now right | exact Hb].
    + injection H as <-. exists e, c. split; [now left | exact He].
    + discriminate H.
Qed.

Lemma for_each_Some_last {K R} (ks : list K) (body : K -> M (option R)) r :
  forall c c',
    for_each ks body c = (Returned (Some r), c') ->
    exists k c1, In k ks /\ body k c1 = (Returned (Some r), c').
Proof.
  induction ks as [| k ks IH]; intros c c' H.
  - discriminate H.
  - cbn [for_each] in H. unfold bind at 1 in H.
    destruct (body k c) as [[[r' |] | e] c1] eqn:Hk.
    + injection H as -> ->. exists k, c. split; [now left | exact Hk].
    + destruct (IH _ _ H) as [k' [d1 [Hin Hb]]].
      exists k', d1. split; [now right | exact Hb].
    + discriminate H.
Qed.

Lemma warn_then_return {A} (d : diagnostic) (r r' : A) c c' :
  (console_warn d ;;; ret r) c = (Returned r', c') ->
  r' = r /\ c' = c ++ [d].
Proof.
  unfold bind, console_warn.
  destruct (holes_error (holes d)); [discriminate |].
  unfold ret. now intros [= <- <-].
Qed.



(** ** The order of keys *)

Lemma mem_perm k l l' : Permutation l l' -> mem k l = mem k l'.
Proof.
  intro Hp. destruct (mem k l) eqn:H1; destruct (mem k l') eqn:H2;
    try reflexivity.
  - apply mem_In in H1. apply (Permutation_in _ Hp) in H1.
    apply mem_In in H1. congruence.
  - apply mem_In in H2. apply (Permutation_in _ (Permutation_sym Hp)) in H2.
    apply mem_In in H2. congruence.
Qed.

Lemma lookup_perm {A} k (l l' : list (string * A)) :
  Permutation l l' -> NoDup (keys l) -> lookup k l = lookup k l'.
Proof.
  induction 1 as [| [k1 a1] l l' Hp IH | [k1 a1] [k2 a2] l
                 | l l' l'' Hp1 IH1 Hp2 IH2]; intro Hnd.
  - reflexivity.
  - cbn [lookup]. inversion Hnd; subst. now rewrite IH.
  - cbn [lookup]. inversion Hnd as [| ? ? Hnotin _]; subst.
    destruct (String.eqb k k1) eqn:E1; destruct (String.eqb k k2) eqn:E2;
      try reflexivity.
    apply String.eqb_eq in E1, E2. subst. exfalso. apply Hnotin. now left.
  - rewrite IH1 by exact Hnd. apply IH2.
    eapply Permutation_NoDup; [| exact Hnd].
    unfold keys. now apply Permutation_map.
Qed.

Lemma BuiltProperties_Forall properties :
  BuiltProperties properties <-> Forall (fun kv => Built (snd kv)) properties.
Proof.
  split.
  - induction 1; constructor; assumption.
  - induction 1 as [| [p sh] l H _ IH]; constructor; assumption.
Qed.

Lemma Forall_perm_iff {A} (P Q : A -> Prop) l l' :
  Permutation l l' -> (forall a, P a <-> Q a) ->
  Forall P l <-> Forall Q l'.
Proof.
  intros Hp Hpq. split; intro H.
  - apply (Permutation_Forall Hp).
    eapply Forall_impl; [| exact H]. intro a. apply Hpq.
  - apply (Permutation_Forall (Permutation_sym Hp)).
    eapply Forall_impl; [| exact H]. intro a. apply Hpq.
Qed.

(** X18.  Whether an object check accepts depends neither on the order in
    which the properties are declared nor on the order of the keys of the
    input (an object has no repeated key). *)
Theorem object_acceptance_ignores_order
    (typename_ : string) (properties properties' : ObjectProperties)
    (own own' : list (string * value)) (c : console)
    (HB : BuiltProperties properties)
    (Hprops : Permutation properties properties')
    (Hown : Permutation own own')
    (Hnodup : NoDup (keys own)) :
  result (Shapes.object_checkFn typename_ properties (VObject own)) c
  = Returned true <->
  result (Shapes.object_checkFn typename_ properties' (VObject own')) c
  = Returned true.
Proof.
  assert (HB' : BuiltProperties properties').
  { apply BuiltProperties_Forall. apply (Permutation_Forall Hprops).
    now apply BuiltProperties_Forall. }
  rewrite (object_accepts_iff typename_ own c HB).
  rewrite (object_accepts_iff typename_ own' c HB').
  assert (Hkeys : Permutation (keys own) (keys own'))
    by (unfold keys; now apply Permutation_map).
  assert (Hpkeys : Permutation (keys properties) (keys properties'))
    by (unfold keys; now apply Permutation_map).
  assert (Hin : forall k, in_properties k properties
                          = in_properties k properties').
  { intro k. unfold in_properties. now rewrite (mem_perm k Hpkeys). }
  assert (Hhas : forall p, has_property (VObject own) p
                           = has_property (VObject own') p).
  { intro p. cbn [has_property]. now rewrite (mem_perm p Hkeys). }
  assert (Hget : forall p, get_property (VObject own) p
                           = get_property (VObject own') p).
  { intro p. cbn [get_property]. now rewrite (lookup_perm p Hown Hnodup). }
  match goal with
  | |- ?A /\ ?B <-> ?A' /\ ?B' =>
      assert (E1 : A <-> A'); [| assert (E2 : B <-> B'); [| tauto]]
  end.
  - apply (Forall_perm_iff _ _ Hkeys). intro k. now rewrite Hin.
  - apply (Forall_perm_iff _ _ Hprops). intros [p sh]. cbn [fst snd].
    now rewrite Hhas, Hget.
Qed.

(** ** What an accepted object is known to hold *)

Lemma lookup_None_mem {A} k (l : list (string * A)) :
  lookup k l = None -> mem k (keys l) = false.
Proof.
  induction l as [| [k' a] l IH]; [reflexivity |].
  cbn. destruct (String.eqb k k'); [discriminate | exact IH].
Qed.

Lemma accepted_body_None typename_ properties own c entry :
  result (Shapes.object_checkFn typename_ properties (VObject own)) c
  = Returned true ->
  In entry properties ->
  exists d1 d2,
    declared_property_body typename_ (VObject own) entry d1
    = (Returned None, d2).
Proof.
  unfold result. rewrite object_checkFn_unfold. unfold bind at 1.
  destruct (unknown_property_loop_cases typename_ properties (keys own) c)
    as [[_ ->] | [_ [c' ->]]]; [| discriminate].
  unfold bind at 1.
  destruct (for_each properties _ c) as [[[r |] | e] c2] eqn:H2; cbn [fst].
  - apply for_each_Some_inv in H2. destruct H2 as [en [d1 [d2 [_ Hb]]]].
    apply declared_property_body_Some in Hb. subst r. discriminate.
  - intros _ Hin. exact (for_each_None_inv _ _ _ H2 _ Hin).
  - discriminate.
Qed.

Lemma accepted_declared_property typename_ properties own c property shape :
  BuiltProperties properties ->
  result (Shapes.object_checkFn typename_ properties (VObject own)) c
  = Returned true ->
  In (property, shape) properties ->
  match lookup property own with
  | Some v => result (checkFn shape (Data v)) [] = Returned true
  | None => isOptional shape = true
  end.
Proof.
  intros HB Hacc Hin.
  pose proof (@BuiltProperties_In _ _ _ HB Hin) as Hs.
  destruct (@accepted_body_None typename_ properties own c (property, shape)
              Hacc Hin) as [d1 [d2 Hb]].
  unfold declared_property_body in Hb. cbn [has_property get_property] in Hb.
  destruct (lookup property own) as [v |] eqn:Hl.
  - destruct (negb (mem property (keys own) || mem property ObjectPrototype)
              && negb (isOptional shape)); [cbv in Hb; discriminate Hb |].
    unfold bind at 1 in Hb.
    rewrite (writes_only_result (Built_writes_only Hs (Data v)) [] d1).
    unfold result.
    destruct (checkFn shape (Data v) d1) as [[[|] | e] d3]; cbn [negb] in Hb.
    + reflexivity.
    + unfold bind, ret in Hb.
      destruct (console_warn _ d3) as [[u | e] d4]; discriminate Hb.
    + discriminate Hb.
  - rewrite (lookup_None_mem _ _ Hl) in Hb. cbn [orb] in Hb.
    destruct (mem property ObjectPrototype); cbn [negb andb] in Hb.
    + unfold bind at 1 in Hb.
      destruct (Built_rejects_builtin Hs property d1) as [d3 Hrej].
      rewrite Hrej in Hb. cbn [negb] in Hb.
      unfold bind, ret in Hb.
      destruct (console_warn _ d3) as [[u | e] d4]; discriminate Hb.
    + destruct (isOptional shape); [reflexivity |].
      cbv in Hb. discriminate Hb.
Qed.

(** X19.  What an accepted object is known to hold, for each declared
    property: either the object has it as an own property and the
    property's check returns true on its value, or the object does not have
    it and the property is optional.  A name found only on
    [Object.prototype] never stands in for a property. *)
Theorem accepted_object_holds_declared_properties
    (typename_ : string) (properties : ObjectProperties)
    (HB : BuiltProperties properties)
    (own : list (string * value)) (c : console)
    (Hacc : result (Shapes.object_checkFn typename_ properties (VObject own)) c
            = Returned true)
    (property : string) (shape : TypeShape)
    (Hin : In (property, shape) properties) :
  match lookup property own with
  | Some v => result (checkFn shape (Data v)) [] = Returned true
  | None => isOptional shape = true
  end.
Proof. now apply accepted_declared_property with typename_ properties c. Qed.

Lemma accepted_array_of_strings (v : value) :
  result (checkFn (Shapes.array Shapes.string) (Data v)) [] = Returned true ->
  exists l, v = VArray l /\ Forall (fun e => exists s, e = VString s) l.
Proof.
  intro H. cbn [checkFn Shapes.array] in H.
  destruct (isArray (Data v)) eqn:Harr; cbn [negb] in H;
    [| cbv in H; discriminate H].
  destruct v as [| | b | f | s | l | o]; try discriminate Harr.
  exists l. split; [reflexivity |]. cbn [elements] in H.
  rewrite every_true_iff in H.
  - eapply Forall_impl; [| exact H]. intros e He.
    apply element_callback_true in He.
    unfold result in He. cbn in He.
    destruct e; try discriminate He. now eexists.
  - intro x. apply writes_only_bind; [apply writes_only_ret |].
    intros [|]; cbn [negb]; auto with shapes.
Qed.

(** X20.  The check of [User] is a sound guard for the type the descriptor
    stands for: when it returns true the input is an object with own
    properties [name], a string, [age], a number that is neither NaN nor
    infinite, and [hasSignedIn], a boolean, and with [permissions] absent,
    [undefined], or an array of strings. *)
Theorem User_check_is_a_type_guard (x : unknown) (c : console)
    (Hacc : result (check User x) c = Returned true) :
  exists own,
    x = Data (VObject own) /\
    (exists s, lookup "name" own = Some (VString s)) /\
    (exists f, lookup "age" own = Some (VNumber f) /\
               f <> S754_nan /\ forall sign, f <> S754_infinity sign) /\
    (exists b, lookup "hasSignedIn" own = Some (VBoolean b)) /\
    (lookup "permissions" own = None \/
     lookup "permissions" own = Some VUndefined \/
     exists l, lookup "permissions" own = Some (VArray l) /\
               Forall (fun e => exists s, e = VString s) l).
Proof.
  change (check User x) with (Shapes.object_checkFn "User" User_properties x)
    in Hacc.
  assert (Hobj : isObject x = true).
  { unfold result, Shapes.object_checkFn in Hacc.
    destruct (isObject x); [reflexivity | cbv in Hacc; discriminate Hacc]. }
  apply isObject_inv in Hobj. destruct Hobj as [own ->]. exists own.
  assert (HB : BuiltProperties User_properties) by repeat constructor.
  pose proof (fun p sh => @accepted_declared_property
                "User" User_properties own c p sh HB Hacc) as Hp.
  split; [reflexivity |]. repeat split.
  - specialize (Hp "name" Shapes.string (or_introl eq_refl)).
    destruct (lookup "name" own) as [v |]; [| discriminate Hp].
    destruct v; try discriminate Hp. now eexists.
  - specialize (Hp "age" Shapes.number (or_intror (or_introl eq_refl))).
    destruct (lookup "age" own) as [v |]; [| discriminate Hp].
    assert (Hn : isNumber (Data v) = true).
    { unfold result in Hp. cbn in Hp. now injection Hp. }
    apply isNumber_iff in Hn. destruct Hn as [f [[= ->] Hf]].
    now exists f.
  - specialize (Hp "hasSignedIn" Shapes.boolean
                  (or_intror (or_intror (or_introl eq_refl)))).
    destruct (lookup "hasSignedIn" own) as [v |]; [| discriminate Hp].
    destruct v; try discriminate Hp. now eexists.
  - specialize (Hp "permissions" (Shapes.optional (Shapes.array Shapes.string))
                  (or_intror (or_intror (or_intror (or_introl eq_refl))))).
    destruct (lookup "permissions" own) as [v |]; [| now left].
    right. destruct v as [| | b | f | s | l | o];
      try (cbv in Hp; discriminate Hp).
    + now left.
    + right. change (result (checkFn (Shapes.array Shapes.string)
                               (Data (VArray l))) [] = Returned true) in Hp.
      apply accepted_array_of_strings in Hp.
      destruct Hp as [l' [[= <-] Hl]]. now exists l.
Qed.

(** X21.  The guard of [bench.ts]: when the check of
    [LoadDeviationsResponse] returns true the input is an object whose own
    property [deviations] is an array, so the read of
    [parsed.deviations.length] that follows is defined. *)
Theorem LoadDeviationsResponse_guards_deviations (x : unknown) (c : console)
    (Hacc : result (check LoadDeviationsResponse x) c = Returned true) :
  exists own devs,
    x = Data (VObject own) /\ lookup "deviations" own = Some (VArray devs).
Proof.
  unfold LoadDeviationsResponse in Hacc.
  cbn [and_then Shapes.object check checkFn] in Hacc.
  match type of Hacc with
  | result (Shapes.object_checkFn ?n [(_, Shapes.array ?D)] _) _ = _ =>
      set (Deviation := D) in *; set (name := n) in *
  end.
  assert (Hobj : isObject x = true).
  { unfold result, Shapes.object_checkFn in Hacc.
    destruct (isObject x); [reflexivity | cbv in Hacc; discriminate Hacc]. }
  apply isObject_inv in Hobj. destruct Hobj as [own ->]. exists own.
  destruct (@accepted_body_None name [("deviations", Shapes.array Deviation)]
              own c ("deviations", Shapes.array Deviation) Hacc
              (or_introl eq_refl)) as [d1 [d2 Hb]].
  unfold declared_property_body in Hb. cbn [has_property get_property] in Hb.
  change (mem "deviations" ObjectPrototype) with false in Hb.
  change (isOptional (Shapes.array Deviation)) with false in Hb.
  rewrite orb_false_r in Hb.
  destruct (lookup "deviations" own) as [v |] eqn:Hl.
  - destruct (negb (mem "deviations" (keys own)) && negb false);
      [cbv in Hb; discriminate Hb |].
    assert (Harr : isArray (Data v) = true).
    { cbn [checkFn Shapes.array] in Hb.
      destruct (isArray (Data v)); [reflexivity |].
      unfold bind, ret, console_warn, throw in Hb.
      cbn [holes holes_error negb] in Hb.
      destruct (hole_error (Data v)); discriminate Hb. }
    destruct v as [| | b | f | s | devs | o]; try discriminate Harr.
    now exists devs.
  - rewrite (lookup_None_mem _ _ Hl) in Hb. cbv in Hb. discriminate Hb.
Qed.

(** ** The remaining assertions of the repository's tests *)

(** [Primitives]: each shape passes on exactly one of the six parsed
    values, the nullable one on two. *)
Example test_Primitives_each_shape_passes_once :
  let parsed_values : list unknown :=
    [ Data (VString "test string"); Data (num 100); Data (VBoolean false);
      Data (VObject [("foo", VString "bar")]); Data (VArray [num 0]);
      Data VNull ] in
  let numPassed shape :=
    List.length (filter (fun x => accepts shape x []) parsed_values) in
  match Shapes.object (inr [("foo", Shapes.string)]) None with
  | Returned objShape =>
      map numPassed
        [ Shapes.string; Shapes.number; Shapes.boolean; objShape;
          Shapes.array Shapes.number; Shapes.nullable Shapes.number ]
      = [1; 1; 1; 1; 1; 2]
  | Thrown _ => False
  end.
Proof. reflexivity. Qed.

(** [Arrays]: the assertions on the nullable array with a number (99.543,
    the double 7004715901677208 * 2^-46) and on the array of objects. *)
Example test_Arrays_objects :
  let ObjectsArrayShape :=
    match Shapes.object (inr [("foo", Shapes.string); ("baz", Shapes.number)])
            None with
    | Returned ObjectShape => Returned (Shapes.array ObjectShape)
    | Thrown e => Thrown e
    end in
  let object_ := VObject [("foo", VString "bar"); ("baz", num 100)] in
  result (checkFn (Shapes.array (Shapes.nullable Shapes.string))
            (VArray [VString "a"; VString "b"; VNull; VString "c";
                     VNumber (S754_finite false 7004715901677208 (-46))])) []
    = Returned false /\
  result (check ObjectsArrayShape (VArray [])) [] = Returned true /\
  result (check ObjectsArrayShape (VArray [object_; object_])) []
    = Returned true.
Proof. repeat split. Qed.

(** ** Inputs that exhaust the stack *)

Lemma ToString_error_nested n :
  forall budget,
    ToString_error budget (nested n)
    = if Nat.ltb n budget then None else Some stack_error.
Proof.
  induction n as [| n IH]; intros [| budget]; try reflexivity.
  cbn [nested ToString_error]. rewrite IH.
  change (Nat.ltb (S n) (S budget)) with (Nat.ltb n budget).
  now destruct (Nat.ltb n budget).
Qed.


End Checks.

(** * Instances

    Each theorem above that has a hypothesis, applied at a concrete input,
    on [sample_engine]. *)

#[local] Existing Instance sample_engine.

Lemma isOptional_iff_optional_modifier_witness :
  (isOptional (Shapes.optional Shapes.number) = true <->
   exists inner,
     Built inner /\ Shapes.optional Shapes.number = Shapes.optional inner) /\
  isOptional (Shapes.optional (Shapes.optional Shapes.number)) = true /\
  isOptional Shapes.string = false /\
  isOptional Shapes.number = false /\
  isOptional Shapes.boolean = false /\
  isOptional (Shapes.nullable (Shapes.optional Shapes.number)) = false /\
  isOptional (Shapes.array (Shapes.optional Shapes.number)) = false /\
  match User with
  | Returned shape => isOptional shape = false
  | Thrown _ => True
  end /\
  isOptional (Shapes.nullable (Shapes.optional (Shapes.optional Shapes.number)))
    = false /\
  isOptional (Shapes.array (Shapes.optional (Shapes.optional Shapes.number)))
    = false.
Proof.
  apply (@isOptional_iff_optional_modifier _
           (Shapes.optional Shapes.number) (Built_optional Built_number)
           (inl "User")
           (Some [ ("name", Shapes.string);
                   ("age", Shapes.number);
                   ("hasSignedIn", Shapes.boolean);
                   ("permissions",
                    Shapes.optional (Shapes.array Shapes.string)) ])).
Defined.

Lemma check_deterministic_witness :
  exists (r : outcome bool) (out : console),
    forall c,
      checkFn (Shapes.array (Shapes.nullable Shapes.string))
              (VArray [VString "a"; VNull; num 99]) c
      = (r, (c ++ out)).
Proof.
  apply (@check_deterministic _
           (Shapes.array (Shapes.nullable Shapes.string))
           (Built_array (Built_nullable Built_string))).
Defined.

Lemma array_check_iff_witness :
  result (checkFn (Shapes.array Shapes.string)
            (VArray [VString "a"; VString "b"])) [] = Returned true /\
  result (checkFn (Shapes.array Shapes.string) (VArray [])) []
    = Returned true /\
  ~ result (checkFn (Shapes.array Shapes.string)
              (VArray [VString "a"; num 1])) [] = Returned true /\
  result (checkFn (Shapes.array Shapes.string) (VString "a")) []
    = Returned false.
Proof.
  split; [| split; [| split]].
  - apply (proj1 (array_check_iff Built_string
                    (VArray [VString "a"; VString "b"]) [])).
    exists [VString "a"; VString "b"]. split; [reflexivity |].
    repeat constructor.
  - exact (proj1 (proj2 (array_check_iff Built_string (VArray []) []))).
  - intro H.
    apply (proj1 (array_check_iff Built_string
                    (VArray [VString "a"; num 1]) [])) in H.
    destruct H as [elems [[= <-] H]].
    inversion H as [| e1 l1 _ H1]; subst.
    inversion H1 as [| e2 l2 H2 _]; subst.
    discriminate H2.
  - apply (proj2 (proj2 (array_check_iff Built_string (VString "a") []))).
    reflexivity.
Defined.

Lemma object_check_ignores_inherited_name_witness :
  (forall c,
     Shapes.object_checkFn "Object" [("a", Shapes.string)]
       (VObject ([("a", VString "x")] ++ ("toString", num 1) :: [])) c
     = Shapes.object_checkFn "Object" [("a", Shapes.string)]
         (VObject ([("a", VString "x")] ++ [])) c) /\
  check shape_a (VObject [("a", VString "x"); ("toString", num 1)]) []
    = (Returned true, []) /\
  check shape_a (VObject [("a", VString "x"); ("constructor", VNull)]) []
    = (Returned true, []) /\
  check shape_a
    (VObject [("hasOwnProperty", VString "no"); ("a", VString "x")]) []
    = (Returned true, []).
Proof.
  apply (@object_check_ignores_inherited_name _
           "Object" [("a", Shapes.string)] [("a", VString "x")] []
           "toString" (num 1)).
  - cbn. tauto.
  - cbn. intros [H | []]. discriminate H.
Defined.

Lemma accepted_input_writes_nothing_witness :
  snd (check User parsed [WarnNotAnArray "earlier"])
  = [WarnNotAnArray "earlier"].
Proof.
  assert (HB : Built {| typename := "User";
                        checkFn := Shapes.object_checkFn "User"
                          [ ("name", Shapes.string);
                            ("age", Shapes.number);
                            ("hasSignedIn", Shapes.boolean);
                            ("permissions",
                             Shapes.optional (Shapes.array Shapes.string)) ];
                        optional := None |}).
  { eapply Built_named_object; [| reflexivity].
    repeat constructor. }
  exact (@accepted_input_writes_nothing _ _ HB parsed
           [WarnNotAnArray "earlier"] _ eq_refl).
Defined.


Lemma object_check_accepts_iff_witness :
  result (check shape_a_optb (VObject [("a", VString "x")])) []
  = Returned true /\
  ~ result (check shape_a_optb
              (VObject [("a", VString "x"); ("b", VString "y")])) []
    = Returned true.
Proof.
  assert (HB : BuiltProperties
                 [("a", Shapes.string); ("b", Shapes.optional Shapes.number)])
    by repeat constructor.
  split.
  - apply (proj2 (@object_check_accepts_iff _ "Object" _ HB
                    [("a", VString "x")] [])).
    split; repeat constructor.
  - intro H.
    apply (proj1 (@object_check_accepts_iff _ "Object" _ HB
                    [("a", VString "x"); ("b", VString "y")] [])) in H.
    destruct H as [_ H].
    inversion H as [| e1 l1 _ H1]; subst.
    inversion H1 as [| e2 l2 [_ H2] _]; subst.
    discriminate H2.
Defined.

Lemma object_check_reports_first_unknown_key_witness :
  check User
    (VObject [ ("name", num 1); ("zzz", VNull); ("age", VString "no");
               ("yyy", VNull) ]) []
  = (Returned false, [WarnUnknownProperty "User" "zzz"]).
Proof.
  apply (@object_check_reports_first_unknown_key _ "User"
           [ ("name", Shapes.string);
             ("age", Shapes.number);
             ("hasSignedIn", Shapes.boolean);
             ("permissions", Shapes.optional (Shapes.array Shapes.string)) ]
           [("name", num 1)] [("age", VString "no"); ("yyy", VNull)]
           "zzz" VNull).
  - repeat constructor.
  - reflexivity.
Defined.

Lemma object_check_rejects_non_object_witness :
  check User VNull [] = (Returned false, [WarnNotAnObject "User"]) /\
  check User (VArray []) [] = (Returned false, [WarnNotAnObject "User"]).
Proof.
  split.
  - apply (@object_check_rejects_non_object _ "User" User_properties
             (Data VNull)).
    intros own H. discriminate H.
  - apply (@object_check_rejects_non_object _ "User" User_properties
             (Data (VArray []))).
    intros own H. discriminate H.
Defined.

Lemma missing_required_property_is_not_accepted_witness :
  result (check User parsed_without_hasSignedIn) [] <> Returned true.
Proof.
  apply (@missing_required_property_is_not_accepted _ "User"
           [ ("name", Shapes.string);
             ("age", Shapes.number);
             ("hasSignedIn", Shapes.boolean);
             ("permissions", Shapes.optional (Shapes.array Shapes.string)) ]
           ltac:(repeat constructor)
           [ ("name", VString "jakob");
             ("age", num 29);
             ("permissions", VArray [VString "developer"; VString "admin"]) ]
           "hasSignedIn" Shapes.boolean).
  - cbn. tauto.
  - reflexivity.
  - reflexivity.
Defined.

Lemma modifier_order_decides_absence_witness :
  check (Shapes.object
           (inr [("b", Shapes.optional (Shapes.nullable Shapes.number))]) None)
        (VObject []) []
  = (Returned true, []) /\
  check (Shapes.object
           (inr [("b", Shapes.nullable (Shapes.optional Shapes.number))]) None)
        (VObject []) []
  = (Returned false,
     [WarnMissingProperty "Object" "b" "number | undefined | null"]).
Proof.
  apply (@modifier_order_decides_absence _ "Object" Shapes.number "b" eq_refl []).
Defined.

Lemma array_check_stops_at_first_rejected_witness :
  checkFn (Shapes.array Shapes.string)
    (VArray ([VString "a"] ++ num 1 :: [VObject [("toString", VNull)]])) []
  = checkFn (Shapes.array Shapes.string)
      (VArray ([VString "a"] ++ [num 1])) [].
Proof.
  apply (@array_check_stops_at_first_rejected _ Shapes.string
           [VString "a"] [VObject [("toString", VNull)]] (num 1)).
  intros c H. discriminate H.
Defined.

Lemma array_check_app_witness :
  result (checkFn (Shapes.array Shapes.string)
            (VArray ([VString "a"] ++ [VString "b"; VString "c"]))) []
  = Returned true.
Proof.
  apply (proj2 (@array_check_app _ Shapes.string Built_string
                  [VString "a"] [VString "b"; VString "c"] [])).
  split; reflexivity.
Defined.

Lemma built_descriptor_rejects_function_witness :
  result (checkFn (Shapes.optional (Shapes.nullable (Shapes.array Shapes.number)))
            (Builtin "valueOf")) [] = Returned false.
Proof.
  apply (@built_descriptor_rejects_function _ _
           (Built_optional (Built_nullable (Built_array Built_number)))).
Defined.

Lemma object_name_only_in_diagnostics_witness :
  result (check User parsed_with_text_age) []
  = result (check (Shapes.object (inl "Account") (Some User_properties))
              parsed_with_text_age) [WarnNotAnArray "earlier"] /\
  result (check User parsed_with_text_age) []
  = result (check (Shapes.object (inr User_properties) None)
              parsed_with_text_age) [WarnNotAnArray "earlier"].
Proof.
  apply (@object_name_only_in_diagnostics _ User_properties
           ltac:(repeat constructor) "User" "Account").
Defined.



Lemma object_acceptance_ignores_order_witness :
  result (Shapes.object_checkFn "Object"
            [("b", Shapes.optional Shapes.number); ("a", Shapes.string)]
            (VObject [("b", num 1); ("a", VString "x")])) []
  = Returned true.
Proof.
  apply (proj1 (@object_acceptance_ignores_order _ "Object"
                  [("a", Shapes.string); ("b", Shapes.optional Shapes.number)]
                  [("b", Shapes.optional Shapes.number); ("a", Shapes.string)]
                  [("a", VString "x"); ("b", num 1)]
                  [("b", num 1); ("a", VString "x")] []
                  ltac:(repeat constructor)
                  (perm_swap _ _ _) (perm_swap _ _ _)
                  ltac:(repeat constructor; cbn; intuition discriminate))).
  reflexivity.
Defined.

Lemma accepted_object_holds_declared_properties_witness :
  result (checkFn Shapes.number (num 29)) [] = Returned true /\
  isOptional (Shapes.optional (Shapes.array Shapes.string)) = true.
Proof.
  assert (HB : BuiltProperties User_properties) by repeat constructor.
  split.
  - exact (@accepted_object_holds_declared_properties _ "User" User_properties
             HB [("name", VString "jakob"); ("age", num 29);
                 ("hasSignedIn", VBoolean true)] [] eq_refl
             "age" Shapes.number (or_intror (or_introl eq_refl))).
  - exact (@accepted_object_holds_declared_properties _ "User" User_properties
             HB [("name", VString "jakob"); ("age", num 29);
                 ("hasSignedIn", VBoolean true)] [] eq_refl
             "permissions" (Shapes.optional (Shapes.array Shapes.string))
             (or_intror (or_intror (or_intror (or_introl eq_refl))))).
Defined.

Lemma User_check_is_a_type_guard_witness :
  exists own,
    Data parsed = Data (VObject own) /\
    (exists s, lookup "name" own = Some (VString s)) /\
    (exists f, lookup "age" own = Some (VNumber f) /\
               f <> S754_nan /\ forall sign, f <> S754_infinity sign) /\
    (exists b, lookup "hasSignedIn" own = Some (VBoolean b)) /\
    (lookup "permissions" own = None \/
     lookup "permissions" own = Some VUndefined \/
     exists l, lookup "permissions" own = Some (VArray l) /\
               Forall (fun e => exists s, e = VString s) l).
Proof.
  exact (@User_check_is_a_type_guard _ (Data parsed) [] eq_refl).
Defined.

Lemma LoadDeviationsResponse_guards_deviations_witness :
  exists own devs,
    Data (VObject [("deviations", VArray [])]) = Data (VObject own) /\
    lookup "deviations" own = Some (VArray devs).
Proof.
  exact (@LoadDeviationsResponse_guards_deviations _
           (Data (VObject [("deviations", VArray [])])) [] eq_refl).
Defined.

